(** * Reality-data viewer sample: manager and range decorator

    A shallow embedding of [src/reality-data-manager.ts] and
    [src/range-decorator.ts].

    JavaScript numbers are IEEE-754 binary64 values, so they are modelled by
    Rocq's primitive floats.  Values of type [any] (the parsed root document,
    a caught error) are modelled by [JsValue].  Asynchronous methods are
    awaited one after the other in the source, so they are modelled as
    sequential computations in a monad that threads the observable state
    (the notifications shown so far, the point-cloud files opened so far) and
    keeps it when an exception is thrown.

    The geometry, coordinate-system and viewer packages the code calls into
    are not part of the repository: their operations are the fields of the
    interfaces [GeometryLibrary] and [OrbitGT], and every theorem holds for
    all of their implementations.  So is the engine's Unicode-aware
    [toUpperCase], of interface [StringPrototype]. *)

From stdpp Require Import base option list strings gmap.
From Stdlib Require Import ZArith Floats.PrimFloat.
From Stdlib Require Import Floats.SpecFloat Floats.FloatOps Floats.FloatAxioms.

Local Open Scope string_scope.
Local Open Scope float_scope.
Set Warnings "-register-all".

(** ** JavaScript values *)

Module Js.

Inductive JsValue : Type :=
| VUndefined
| VNull
| VBool (b : bool)
| VNum (x : float)
| VStr (s : string)
| VArr (items : list JsValue)
| VObj (fields : list (string * JsValue)).

(** Result of running a piece of code: a value, or a thrown value. *)
Inductive Outcome (A : Type) : Type :=
| Returned (a : A)
| Thrown (e : JsValue).
Arguments Returned {A} a.
Arguments Thrown {A} e.

(** The value the engine throws when a property of [undefined] or [null]
    is read. *)
Definition TypeError : JsValue :=
  VObj [("message", VStr "Cannot read properties of undefined")].

(** ToBoolean. *)
Definition truthy (v : JsValue) : bool :=
  match v with
  | VUndefined | VNull => false
  | VBool b => b
  | VNum x => negb (PrimFloat.eqb x 0) && PrimFloat.eqb x x
  | VStr s => negb (String.eqb s "")
  | VArr _ | VObj _ => true
  end.

(** ToBoolean of an optional string ([s ? a : b], [s && ...]). *)
Definition truthy_str (s : option string) : bool :=
  match s with
  | Some s => negb (String.eqb s "")
  | None => false
  end.

Fixpoint own_property (fields : list (string * JsValue)) (key : string)
  : option JsValue :=
  match fields with
  | [] => None
  | (k, v) :: rest => if String.eqb k key then Some v else own_property rest key
  end.

(** [v.key] for the ordinary (non built-in) property names the code reads:
    a [TypeError] on [undefined] and [null], the own property of an object,
    [undefined] on everything else. *)
Definition get (v : JsValue) (key : string) : Outcome JsValue :=
  match v with
  | VUndefined | VNull => Thrown TypeError
  | VObj fields => Returned (default VUndefined (own_property fields key))
  | _ => Returned VUndefined
  end.

(** [Object.hasOwn(v, key)] once [v] is known to be a non-null object. *)
Definition hasOwn (v : JsValue) (key : string) : bool :=
  match v with
  | VObj fields => bool_decide (is_Some (own_property fields key))
  | _ => false
  end.

(** [typeof v === "object"]. *)
Definition typeof_object (v : JsValue) : bool :=
  match v with
  | VNull | VArr _ | VObj _ => true
  | _ => false
  end.

(** [v === n] for a number literal [n]. *)
Definition strict_eq_num (v : JsValue) (n : float) : bool :=
  match v with
  | VNum x => PrimFloat.eqb x n
  | _ => false
  end.

(** [arr[i]]. *)
Definition index (items : list JsValue) (i : nat) : JsValue :=
  default VUndefined (items !! i).

(** The number an array entry stands for in arithmetic.  The entries of a
    region are numbers; [undefined] (a missing entry) behaves as NaN. *)
Definition number_of (v : JsValue) : float :=
  match v with
  | VNum x => x
  | _ => PrimFloat.nan
  end.

Definition is_number (v : JsValue) : Prop :=
  match v with
  | VNum _ => True
  | _ => False
  end.

(** [JsonUtils.asArray]: the value itself when it is an array. *)
Definition asArray (v : JsValue) : option (list JsValue) :=
  match v with
  | VArr items => Some items
  | _ => None
  end.

(** Upper-casing of the ASCII letters, the other characters kept. *)
Definition upper_ascii (c : Ascii.ascii) : Ascii.ascii :=
  let n := Ascii.nat_of_ascii c in
  if (97 <=? n)%nat && (n <=? 122)%nat then Ascii.ascii_of_nat (n - 32) else c.

Fixpoint ascii_toUpperCase (s : string) : string :=
  match s with
  | EmptyString => EmptyString
  | String c rest => String (upper_ascii c) (ascii_toUpperCase rest)
  end.

(** The string holds ASCII characters only. *)
Fixpoint ascii_only (s : string) : bool :=
  match s with
  | EmptyString => true
  | String c rest => (Ascii.nat_of_ascii c <? 128)%nat && ascii_only rest
  end.

(** [String.prototype.toUpperCase].  It follows the Unicode case mapping
    (the long s and the dotless i become S and I, for one), which is a table
    of the engine and not of the repository: the function is a parameter,
    known only by what it does to a string of ASCII characters. *)
Class StringPrototype : Type := {
  toUpperCase : string -> string;
  toUpperCase_ascii :
    forall s, ascii_only s = true -> toUpperCase s = ascii_toUpperCase s
}.

End Js.
Export Js.

(** ** Notifications and the computation monad *)

(** [toaster.negative(content, { type })]. *)
Inductive Toast : Type :=
| negative (content : string) (type : string).

(** [new PageCachedFile(fs, url, size, pageSize, maxPageCount)]. *)
Record PageCachedFile : Type := {
  pcf_fileName : string;
  pcf_fileSize : Z;
  pcf_pageSize : Z;
  pcf_maxPageCount : Z
}.

(** What an observer sees of a run, oldest first, and the two process-wide
    singletons of the point-cloud package. *)
Record World : Type := {
  toasts : list Toast;
  opened : list PageCachedFile;
  Downloader_INSTANCE : bool;
  CRSManager_ENGINE : bool
}.

Definition initial_world : World :=
  {| toasts := []; opened := []; Downloader_INSTANCE := false; CRSManager_ENGINE := false |}.

Definition Async (A : Type) : Type := World -> Outcome A * World.

Definition ret {A} (a : A) : Async A := fun w => (Returned a, w).

Definition throw {A} (e : JsValue) : Async A := fun w => (Thrown e, w).

Definition bind {A B} (m : Async A) (k : A -> Async B) : Async B :=
  fun w =>
    match m w with
    | (Returned a, w') => k a w'
    | (Thrown e, w') => (Thrown e, w')
    end.

(** [await p] for a promise that is already settled, or a synchronous call
    that may throw. *)
Definition await {A} (o : Outcome A) : Async A := fun w => (o, w).

(** [try { body } catch (error) { handler }]. *)
Definition try_catch {A} (body : Async A) (handler : JsValue -> Async A) : Async A :=
  fun w =>
    match body w with
    | (Returned a, w') => (Returned a, w')
    | (Thrown e, w') => handler e w'
    end.

Definition toaster_negative (content type : string) : Async unit :=
  fun w =>
    (Returned tt,
     {| toasts := toasts w ++ [negative content type];
        opened := opened w;
        Downloader_INSTANCE := Downloader_INSTANCE w;
        CRSManager_ENGINE := CRSManager_ENGINE w |}).

Declare Scope async_scope.
Delimit Scope async_scope with async.
Notation "x <- m ;; k" := (bind m (fun x => k))
  (at level 100, m at next level, right associativity) : async_scope.
Notation "m ;;; k" := (bind m (fun _ => k))
  (at level 100, right associativity) : async_scope.
Notation "'when' c 'then' m" := (if c then m else ret tt)
  (at level 99, c at level 98) : async_scope.
Local Open Scope async_scope.

(** ** Plain data of the geometry packages

    These are the object shapes the source reads and writes field by field. *)

(** [XYZProps]; [Point3d] and [Vector3d] have this shape. *)
Record XYZProps : Type := { x : float; y : float; z : float }.

(** [Cartographic]: longitude and latitude in radians, height in metres. *)
Record Cartographic : Type := { longitude : float; latitude : float; height : float }.

(** [YawPitchRollProps] written as a literal. *)
Record YawPitchRollProps : Type := { yaw : float; pitch : float; roll : float }.

(** [Bounds] of the point-cloud package, read through its six getters. *)
Record OrbitGtBounds : Type := {
  getMinX : float; getMinY : float; getMinZ : float;
  getMaxX : float; getMaxY : float; getMaxZ : float
}.

(** The classes of the geometry packages whose fields the source never
    touches. *)
Class GeometryTypes : Type := {
  Range3d : Type;
  Matrix3d : Type;
  Transform : Type;
  YawPitchRollAngles : Type;
  EcefLocation : Type
}.

Section DataModel.
Context {T : GeometryTypes}.

(** The [orientation] of an [EcefLocationProps]: a literal, or an instance of
    [YawPitchRollAngles]. *)
Inductive Orientation : Type :=
| orientation_literal (p : YawPitchRollProps)
| orientation_angles (a : YawPitchRollAngles).

Record EcefLocationProps : Type := {
  origin : XYZProps;
  orientation : Orientation;
  xVector : option XYZProps;
  yVector : option XYZProps
}.

(** [Cartographic | EcefLocationProps]; an [EcefLocation] instance is an
    [EcefLocationProps] too. *)
Inductive Location : Type :=
| loc_Cartographic (c : Cartographic)
| loc_EcefLocationProps (p : EcefLocationProps)
| loc_EcefLocation (e : EcefLocation).

Record GeoLocation : Type := {
  location : option Location;
  extents : option Range3d
}.

(** Result of [YawPitchRollAngles.tryFromTransform]. *)
Record TransformAngles : Type := {
  ta_origin : XYZProps;
  ta_angles : option YawPitchRollAngles
}.

(** Result of [RealityModelTileUtils.rangeFromBoundingVolume]. *)
Record RealityModelRange : Type := { range : Range3d }.

End DataModel.

(** The operations of [@itwin/core-geometry], [@itwin/core-common] and
    [@itwin/core-frontend] that the manager calls.  An operation the source
    treats as possibly [undefined] returns an [option]. *)
Class GeometryLibrary {T : GeometryTypes} : Type := {
  (* Range3d *)
  Range3d_new : Range3d;
  Range3d_createNull : Range3d;
  Range3d_create : XYZProps -> XYZProps -> Range3d;
  Range3d_createXYZXYZ : float -> float -> float -> float -> float -> float -> Range3d;
  Range3d_fromJSON : Range3d -> Range3d;
  extendRange : Range3d -> Range3d -> Range3d;
  center : Range3d -> XYZProps;
  localXYZToWorld : Range3d -> float -> float -> float -> option XYZProps;
  magnitude : XYZProps -> float;
  Vector3d_createFrom : XYZProps -> XYZProps;
  (* Matrix3d and Transform *)
  isIdentity : Matrix3d -> bool;
  columnX : Matrix3d -> XYZProps;
  columnY : Matrix3d -> XYZProps;
  Transform_createIdentity : Transform;
  matrix : Transform -> Matrix3d;
  inverse : Transform -> option Transform;
  multiplyRange : Transform -> Range3d -> Range3d;
  multiplyPoint3d : Transform -> XYZProps -> XYZProps;
  YawPitchRollAngles_tryFromTransform : Transform -> option TransformAngles;
  (* Cartographic *)
  Cartographic_createZero : Cartographic;
  Cartographic_fromRadians : Cartographic -> Cartographic;
  Cartographic_fromDegrees : Cartographic -> Cartographic;
  Cartographic_fromEcef : XYZProps -> option Cartographic;
  toEcef : Cartographic -> XYZProps;
  (* EcefLocation *)
  EcefLocation_new : EcefLocationProps -> EcefLocation;
  EcefLocation_createFromCartographicOrigin : Cartographic -> option XYZProps -> EcefLocation;
  getTransform : EcefLocation -> Transform;
  (* RealityModelTileUtils *)
  transformFromJson : JsValue -> option Transform;
  rangeFromBoundingVolume : JsValue -> option RealityModelRange
}.

(** The operations of [@itwin/core-orbitgt] that the manager calls.  The
    awaited ones may reject. *)
Class OrbitGT : Type := {
  PointCloudReader : Type;
  UrlFS_getFileLength : string -> Outcome Z;
  OnlineEngine_create : Outcome unit;
  OPCReader_openFile : PageCachedFile -> string -> bool -> Outcome PointCloudReader;
  getFileBounds : PointCloudReader -> OrbitGtBounds;
  getFileCRS : PointCloudReader -> option string;
  prepareForArea : string -> OrbitGtBounds -> Outcome unit;
  OrbitGtBounds_new : OrbitGtBounds;
  CRSManager_transformBounds : OrbitGtBounds -> string -> string -> OrbitGtBounds
}.

(** The browser's [fetch(url, { method: "GET" })]: it rejects, or resolves
    to a response whose body may fail to parse. *)
Record Response : Type := {
  ok : bool;
  json : Outcome JsValue
}.

Class Browser : Type := {
  fetch : string -> Outcome Response
}.

(** ** The reality-data client *)

(** [ITwinRealityData]: the fields the manager reads, and its
    [getBlobUrl(accessToken, blobPath)] method with the URL as a string. *)
Record ITwinRealityData : Type := {
  rd_id : string;
  rd_displayName : option string;
  rd_type : option string;
  rd_rootDocument : option string;
  rd_description : option string;
  getBlobUrl : string -> string -> Outcome string
}.

Record RealityDataAccessClient : Type := {
  getRealityData : string -> string -> string -> Outcome ITwinRealityData
}.

Inductive RealityDataProvider : Type := ContextShare.
Inductive RealityDataFormat : Type := ThreeDTile | OPC.

Record RealityDataSourceKey : Type := {
  provider : RealityDataProvider;
  format : RealityDataFormat;
  key_id : string
}.

Record ContextRealityModelProps : Type := {
  rdSourceKey : RealityDataSourceKey;
  tilesetUrl : string;
  name : option string;
  description : option string;
  realityDataId : option string
}.

(** ** [RealityDataManager] *)

Section Manager.
Context {T : GeometryTypes} {G : GeometryLibrary} {P : OrbitGT} {B : Browser}
        {S : StringPrototype}.

Record RealityDataProps : Type := {
  realityData : option ContextRealityModelProps;
  geoLocation : option GeoLocation
}.

Record BlankConnectionProps : Type := {
  bc_name : string;
  bc_location : Location;
  bc_extents : Range3d;
  bc_iTwinId : string
}.

Record RealityDataManager : Type := {
  _iTwinId : string;
  _realityDataId : string;
  _rdaClient : RealityDataAccessClient
}.

(** Using a value that the source asserts to be defined ([e!] followed by a
    property read or a method call, or passed to a library function that
    reads it): a [TypeError] when it is [undefined]. *)
Definition deref {A} (o : option A) : Async A :=
  match o with
  | Some a => ret a
  | None => throw TypeError
  end.

Definition is_undefined (v : JsValue) : bool :=
  match v with
  | VUndefined => true
  | _ => false
  end.

Definition centerOfEarth : EcefLocationProps :=
  {| origin := {| x := 0; y := 0; z := 0 |};
     orientation := orientation_literal {| yaw := 0; pitch := 0; roll := 0 |};
     xVector := None;
     yVector := None |}.

(** The region branch of [parseRootDocument] (lines 265-292). *)
Definition parseRegion (worldRange : Range3d) (region_json : JsValue)
  : Async (option GeoLocation) :=
  match asArray region_json with
  | None =>
      toaster_negative "RootDocMissingRegionProperty" "persisting" ;;;
      ret None
  | Some region =>
      let r i := number_of (index region i) in
      let ecefLow := toEcef (Cartographic_fromRadians
        {| longitude := r 0%nat; latitude := r 1%nat; height := r 4%nat |}) in
      let ecefHigh := toEcef (Cartographic_fromRadians
        {| longitude := r 2%nat; latitude := r 3%nat; height := r 5%nat |}) in
      let ecefRange := Range3d_create ecefLow ecefHigh in
      let cartoCenter := Cartographic_fromRadians
        {| longitude := (r 0%nat + r 2%nat) / 2;
           latitude := (r 1%nat + r 3%nat) / 2;
           height := (r 4%nat + r 5%nat) / 2 |} in
      let location := loc_Cartographic cartoCenter in
      let ecefLocation := EcefLocation_createFromCartographicOrigin cartoCenter None in
      ecefToWorld <- deref (inverse (getTransform ecefLocation)) ;;
      let worldRange :=
        extendRange worldRange (Range3d_fromJSON (multiplyRange ecefToWorld ecefRange)) in
      (* the function ends here: this path has no return statement *)
      ret None
  end.

(** The test of lines 320-324: the transform is used when its matrix is not
    the identity and yaw, pitch and roll angles were extracted from it. *)
Definition usableOrientation (worldToEcefTransform : Transform)
    (locationOrientation : option TransformAngles)
  : option (XYZProps * YawPitchRollAngles) :=
  if negb (isIdentity (matrix worldToEcefTransform)) then
    match locationOrientation with
    | Some lo =>
        match ta_angles lo with
        | Some angles => Some (ta_origin lo, angles)
        | None => None
        end
    | None => None
    end
  else None.

(** The transform branch of [parseRootDocument] (lines 294-343). *)
Definition parseTransform (worldRange : Range3d) (root boundingVolume : JsValue)
  : Async (option GeoLocation) :=
  transform_json <- await (get root "transform") ;;
  let worldToEcefTransform :=
    default Transform_createIdentity (transformFromJson transform_json) in
  range_ <- deref (rangeFromBoundingVolume boundingVolume) ;;
  let ecefRange := multiplyRange worldToEcefTransform (range range_) in
  let ecefCenter := multiplyPoint3d worldToEcefTransform (center (range range_)) in
  let cartoCenter := Cartographic_fromEcef ecefCenter in
  let isNotNearEarthSurface :=
    match cartoCenter with
    | Some c => PrimFloat.ltb (height c) (-5000)
    | None => false
    end in
  let earthCenterToRangeCenterRayLength := magnitude (center (range range_)) in
  if isIdentity (matrix worldToEcefTransform)
     && (PrimFloat.ltb earthCenterToRangeCenterRayLength 1.0e5 || isNotNearEarthSurface)
  then
    let worldRange := extendRange worldRange (Range3d_fromJSON ecefRange) in
    ret (Some {| location := Some (loc_EcefLocationProps centerOfEarth);
                 extents := Some worldRange |})
  else
    let locationOrientation := YawPitchRollAngles_tryFromTransform worldToEcefTransform in
    ecefLocation <-
      match usableOrientation worldToEcefTransform locationOrientation with
      | Some (lo_origin, lo_angles) =>
          let xVector_ := Vector3d_createFrom (columnX (matrix worldToEcefTransform)) in
          let yVector_ := Vector3d_createFrom (columnY (matrix worldToEcefTransform)) in
          ret (EcefLocation_new
                 {| origin := lo_origin;
                    xVector := Some xVector_;
                    yVector := Some yVector_;
                    orientation := orientation_angles lo_angles |})
      | None =>
          let worldCenter :=
            if negb (isIdentity (matrix worldToEcefTransform))
            then Some (center (range range_)) else None in
          cartoCenter' <- deref cartoCenter ;;
          ret (EcefLocation_createFromCartographicOrigin cartoCenter' worldCenter)
      end ;;
    ecefToWorld <- deref (inverse (getTransform ecefLocation)) ;;
    let worldRange :=
      extendRange worldRange (Range3d_fromJSON (multiplyRange ecefToWorld ecefRange)) in
    ret (Some {| location := Some (loc_EcefLocation ecefLocation);
                 extents := Some worldRange |}).

Definition parseRootDocument (rootDoc : JsValue) : Async (option GeoLocation) :=
  let worldRange := Range3d_new in
  (* overwritten on every path that uses it *)
  let location := loc_Cartographic Cartographic_createZero in
  root <- await (get rootDoc "root") ;;
  if is_undefined root then
    toaster_negative "RootDocMissingRootProperty" "persisting" ;;;
    ret None
  else
    boundingVolume <- await (get root "boundingVolume") ;;
    region_json <- await (get boundingVolume "region") ;;
    if truthy region_json
    then parseRegion worldRange region_json
    else parseTransform worldRange root boundingVolume.

(** [OPCReader.openFile(file, name, lazyLoading)], recording the cached
    file the reader is opened on. *)
Definition OPCReader_open (file : PageCachedFile) (fileName : string) (lazyLoading : bool)
  : Async PointCloudReader :=
  fun w =>
    (OPCReader_openFile file fileName lazyLoading,
     {| toasts := toasts w;
        opened := opened w ++ [file];
        Downloader_INSTANCE := Downloader_INSTANCE w;
        CRSManager_ENGINE := CRSManager_ENGINE w |}).

(** Lines 357-359: [Downloader.INSTANCE] is set when it was not. *)
Definition ensure_Downloader : Async unit :=
  fun w =>
    (Returned tt,
     {| toasts := toasts w;
        opened := opened w;
        Downloader_INSTANCE := true;
        CRSManager_ENGINE := CRSManager_ENGINE w |}).

(** Lines 361-363: [CRSManager.ENGINE] is created when there was none;
    creating it is awaited and may reject. *)
Definition ensure_CRSManager : Async unit :=
  fun w =>
    if CRSManager_ENGINE w then (Returned tt, w)
    else
      match OnlineEngine_create with
      | Returned _ =>
          (Returned tt,
           {| toasts := toasts w;
              opened := opened w;
              Downloader_INSTANCE := Downloader_INSTANCE w;
              CRSManager_ENGINE := true |})
      | Thrown e => (Thrown e, w)
      end.

Definition Range3d_ofBounds (b : OrbitGtBounds) : Range3d :=
  Range3d_createXYZXYZ (getMinX b) (getMinY b) (getMinZ b)
                       (getMaxX b) (getMaxY b) (getMaxZ b).

(** Lines 371-410 of [realityModelFromOPC]: the location and extents of an
    opened file. *)
Definition locateOPC (fileReader : PointCloudReader) : Async (option GeoLocation) :=
  let bounds := getFileBounds fileReader in
  let worldRange := Range3d_ofBounds bounds in
  match getFileCRS fileReader with
  | Some fileCrs =>
      if negb (String.eqb fileCrs "") then
        await (prepareForArea fileCrs bounds) ;;;
        let wgs84ECEFCrs := "4978" in
        await (prepareForArea wgs84ECEFCrs OrbitGtBounds_new) ;;;
        let ecefBounds := CRSManager_transformBounds bounds fileCrs wgs84ECEFCrs in
        let ecefRange := Range3d_ofBounds ecefBounds in
        ecefCenter <- deref (localXYZToWorld ecefRange 0.5 0.5 0.5) ;;
        cartoCenter <- deref (Cartographic_fromEcef ecefCenter) ;;
        let cartoCenter :=
          {| longitude := longitude cartoCenter;
             latitude := latitude cartoCenter;
             height := 0 |} in
        let ecefLocation := EcefLocation_createFromCartographicOrigin cartoCenter None in
        ecefToWorld <- deref (inverse (getTransform ecefLocation)) ;;
        let worldRange := multiplyRange ecefToWorld ecefRange in
        ret (Some {| location := Some (loc_EcefLocation ecefLocation);
                     extents := Some worldRange |})
      else
        (* NoGCS case *)
        ret (Some {| location := Some (loc_EcefLocationProps centerOfEarth);
                     extents := Some worldRange |})
  | None =>
      (* NoGCS case *)
      ret (Some {| location := Some (loc_EcefLocationProps centerOfEarth);
                   extents := Some worldRange |})
  end.

Definition realityModelFromOPC (blobFileURL : string) : Async (option GeoLocation) :=
  ensure_Downloader ;;;
  ensure_CRSManager ;;;
  (* wrap a caching layer (16 MB) around the blob file *)
  blobFileSize <- await (UrlFS_getFileLength blobFileURL) ;;
  let blobFile :=
    {| pcf_fileName := blobFileURL;
       pcf_fileSize := blobFileSize;
       pcf_pageSize := 128 * 1024;
       pcf_maxPageCount := 128 |} in
  fileReader <- OPCReader_open blobFile blobFileURL true ;;
  locateOPC fileReader.

(** [s ? s : fallback] for an optional string. *)
Definition or_else (s : option string) (fallback : string) : string :=
  match s with
  | Some s' => if String.eqb s' "" then fallback else s'
  | None => fallback
  end.

(** [type && type.toUpperCase() === tag]. *)
Definition type_is (type : option string) (tag : string) : bool :=
  match type with
  | Some t => negb (String.eqb t "") && String.eqb (toUpperCase t) tag
  | None => false
  end.

(** Lines 139-140: the name of the root document of a record. *)
Definition rootDocName (realityData : ITwinRealityData) : string :=
  let name := or_else (rd_displayName realityData) (rd_id realityData) in
  or_else (rd_rootDocument realityData) (name ++ ".json").

Definition getRealityDataGeoLocation (accessToken : string) (realityData : ITwinRealityData)
  : Async (option GeoLocation) :=
  rootDocUrl <- await (getBlobUrl realityData accessToken (rootDocName realityData)) ;;
  if type_is (rd_type realityData) "OPC" then
    realityModelFromOPC rootDocUrl
  else if type_is (rd_type realityData) "CESIUM3DTILES"
          || type_is (rd_type realityData) "PNTS"
          || type_is (rd_type realityData) "REALITYMESH3DTILES"
          || type_is (rd_type realityData) "TERRAIN3DTILES"
  then
    (* Query root document *)
    rootDocResponse <- await (fetch rootDocUrl) ;;
    if negb (ok rootDocResponse) then
      toaster_negative "RootDocumentError" "persisting" ;;;
      ret None
    else
      rootDoc <- await (json rootDocResponse) ;;
      parseRootDocument rootDoc
  else
    (* Only 5 types of reality data are currently supported *)
    toaster_negative "NotSupported" "persisting" ;;;
    ret None.

Definition fetchRealityData (this : RealityDataManager) (accessToken : string)
  : Async (option ITwinRealityData) :=
  try_catch
    (realityData <- await (getRealityData (_rdaClient this) accessToken
                             (_iTwinId this) (_realityDataId this)) ;;
     ret (Some realityData))
    (fun error =>
       (if truthy error && typeof_object error && hasOwn error "errorNumber" then
          let errorNumber :=
            match error with
            | VObj fields => default VUndefined (own_property fields "errorNumber")
            | _ => VUndefined
            end in
          (when strict_eq_num errorNumber 401
           then toaster_negative "Unauthorized" "persisting") ;;;
          (when strict_eq_num errorNumber 404
           then toaster_negative "NotFound" "persisting") ;;;
          (when strict_eq_num errorNumber 422
           then toaster_negative "SomethingWentWrong" "persisting")
        else
          toaster_negative "SomethingWentWrongUnexpected" "persisting") ;;;
       ret None).

Definition getRealityDataProps (this : RealityDataManager) (accessToken : string)
  : Async RealityDataProps :=
  realityData <- fetchRealityData this accessToken ;;
  match realityData with
  | None => ret {| realityData := None; geoLocation := None |}
  | Some realityData =>
      let name := or_else (rd_displayName realityData) (rd_id realityData) in
      let realityDataSourceKey :=
        {| provider := ContextShare;
           format := match rd_type realityData with
                     | Some t => if String.eqb t "OPC" then OPC else ThreeDTile
                     | None => ThreeDTile
                     end;
           key_id := rd_id realityData |} in
      tilesetUrl_ <- await (getBlobUrl realityData accessToken "") ;;
      let visualizationProps :=
        {| rdSourceKey := realityDataSourceKey;
           tilesetUrl := tilesetUrl_;
           name := Some name;
           description := rd_description realityData;
           realityDataId := Some (rd_id realityData) |} in
      geoLocation <- getRealityDataGeoLocation accessToken realityData ;;
      ret {| realityData := Some visualizationProps; geoLocation := geoLocation |}
  end.

Definition getBlankConnection (this : RealityDataManager)
    (realityDataProps : RealityDataProps) : BlankConnectionProps :=
  {| bc_name :=
       match realityData realityDataProps ≫= name with
       | Some n => n
       | None => "Reality Data"
       end;
     bc_location :=
       match geoLocation realityDataProps ≫= location with
       | Some l => l
       | None => loc_Cartographic
                   (Cartographic_fromDegrees {| longitude := 0; latitude := 0; height := 0 |})
       end;
     bc_extents :=
       match geoLocation realityDataProps ≫= extents with
       | Some e => e
       | None => Range3d_createNull
       end;
     bc_iTwinId := _iTwinId this |}.

End Manager.

(** ** [RangeDecoration] and the host's decoration subsystem *)

(** The colour operations of [@itwin/core-common] that [decorate] calls. *)
Class RenderLibrary : Type := {
  ColorDef : Type;
  ColorDef_white : ColorDef;
  ColorDef_black : ColorDef;
  adjustedForContrast : ColorDef -> ColorDef -> ColorDef;
  withAlpha : ColorDef -> Z -> ColorDef
}.

Inductive GraphicType : Type := WorldDecoration | WorldOverlay.
Inductive LinePixels : Type := Solid | Code2.

Module RangeDecorator.
Section Decorator.
Context {T : GeometryTypes} {R : RenderLibrary}.

(** Objects are identified by their address in the heap. *)
Definition Ref : Type := nat.

(** An instance.  The listener remover returned by [addDecorator] is the
    closure that drops the decorator it was returned for, so it is
    represented by that decorator's address. *)
Record RangeDecoration : Type := {
  _removeDecorationListener : option Ref;
  _extents : Range3d
}.

(** The static field [RangeDecoration._decorator], the instances, and the
    decorators registered with [IModelApp.viewManager], in registration
    order. *)
Record App : Type := {
  heap : gmap Ref RangeDecoration;
  _decorator : option Ref;
  decorators : list Ref
}.

Definition initial : App :=
  {| heap := ∅; _decorator := None; decorators := [] |}.

(** What [decorate] reads of its [DecorateContext]. *)
Record DecorateContext : Type := {
  isSpatialView : bool;
  backgroundColor : ColorDef
}.

(** A graphic handed to [context.addDecorationFromBuilder]. *)
Record Decoration : Type := {
  graphicType : GraphicType;
  lineColor : ColorDef;
  fillColor : ColorDef;
  lineWidth : Z;
  linePixels : LinePixels;
  rangeBox : Range3d
}.

(** Modelled from the host's contract: [viewManager.addDecorator] appends the
    decorator to the registered ones and returns the closure that drops it
    (it refuses a decorator that is registered already, which a newly
    constructed object never is). *)
Definition addDecorator (d : Ref) (s : App) : Ref * App :=
  (d, {| heap := heap s; _decorator := _decorator s; decorators := decorators s ++ [d] |}).

Fixpoint remove_first (d : Ref) (l : list Ref) : list Ref :=
  match l with
  | [] => []
  | d' :: rest => if Nat.eqb d' d then rest else d' :: remove_first d rest
  end.

(** Modelled from the host's contract: [viewManager.dropDecorator] removes
    the decorator from the registered ones when it is there. *)
Definition dropDecorator (d : Ref) (s : App) : App :=
  {| heap := heap s; _decorator := _decorator s; decorators := remove_first d (decorators s) |}.

Definition set_listener (this : Ref) (l : option Ref) (s : App) : App :=
  {| heap := alter (fun o => {| _removeDecorationListener := l; _extents := _extents o |})
                   this (heap s);
     _decorator := _decorator s;
     decorators := decorators s |}.

Definition updateDecorationListener (this : Ref) (add : bool) (s : App) : App :=
  match heap s !! this with
  | Some o =>
      match _removeDecorationListener o with
      | Some remover =>
          if negb add then set_listener this None (dropDecorator remover s) else s
      | None =>
          if add then
            let (remover, s') := addDecorator this s in
            set_listener this (Some remover) s'
          else s
      end
  | None => s
  end.

(** [new RangeDecoration(range)]. *)
Definition constructor (range_ : Range3d) (s : App) : Ref * App :=
  let this := fresh (dom (heap s)) in
  let s1 :=
    {| heap := <[this := {| _removeDecorationListener := None; _extents := range_ |}]> (heap s);
       _decorator := Some this;
       decorators := decorators s |} in
  (this, updateDecorationListener this true s1).

Definition stop (this : Ref) (s : App) : App :=
  updateDecorationListener this false s.

Definition isActive (s : App) : bool :=
  match _decorator s with
  | Some _ => true
  | None => false
  end.

Definition updateExtents (this : Ref) (newExtents : Range3d) (s : App) : App :=
  {| heap := alter (fun o => {| _removeDecorationListener := _removeDecorationListener o;
                                _extents := newExtents |})
                   this (heap s);
     _decorator := _decorator s;
     decorators := decorators s |}.

Definition decorate (this : RangeDecoration) (context : DecorateContext) : list Decoration :=
  if negb (isSpatialView context) then []
  else
    let colorAccVis := adjustedForContrast ColorDef_white (backgroundColor context) in
    let colorAccHid := withAlpha colorAccVis 100 in
    [ {| graphicType := WorldDecoration; lineColor := colorAccVis;
         fillColor := ColorDef_black; lineWidth := 3; linePixels := Solid;
         rangeBox := _extents this |};
      {| graphicType := WorldOverlay; lineColor := colorAccHid;
         fillColor := ColorDef_black; lineWidth := 1; linePixels := Code2;
         rangeBox := _extents this |} ].

Definition getOrCreate (range_ : Range3d) (s : App) : Ref * App :=
  match _decorator s with
  | Some d => (d, s)
  | None => constructor range_ s
  end.

Definition dispose (s : App) : App :=
  let dec := _decorator s in
  let s1 := match dec with Some d => stop d s | None => s end in
  let s2 := {| heap := heap s1; _decorator := None; decorators := decorators s1 |} in
  match dec with
  | None => s2
  | Some d => dropDecorator d s2
  end.

(** Modelled from the host's contract: on a redraw request the view manager
    calls [decorate] on every registered decorator and collects the graphics
    they add. *)
Definition redraw (context : DecorateContext) (s : App) : list Decoration :=
  d ← decorators s;
  match heap s !! d with
  | Some o => decorate o context
  | None => []
  end.

(** The states the application can be in: those reached through the static
    entry points and [updateExtents]. *)
Inductive reachable : App -> Prop :=
| reachable_initial : reachable initial
| reachable_getOrCreate s r : reachable s -> reachable (getOrCreate r s).2
| reachable_dispose s : reachable s -> reachable (dispose s)
| reachable_updateExtents s d r : reachable s -> reachable (updateExtents d r s).

End Decorator.
End RangeDecorator.

(** ** An executable implementation of the interfaces

    A small stand-in for the external packages, on which the embedding can be
    run on concrete documents: ranges are pairs of corners, a transform is
    three matrix columns and an origin, and the Earth is flat (longitude,
    latitude and height are the three Cartesian coordinates). *)

Module Sample.

Definition xyz_eqb (p q : XYZProps) : bool :=
  PrimFloat.eqb (x p) (x q) && PrimFloat.eqb (y p) (y q) && PrimFloat.eqb (z p) (z q).

Definition xyz_add (p q : XYZProps) : XYZProps :=
  {| x := x p + x q; y := y p + y q; z := z p + z q |}.

Definition xyz_scale (k : float) (p : XYZProps) : XYZProps :=
  {| x := k * x p; y := k * y p; z := k * z p |}.

Record Columns : Type := { colX : XYZProps; colY : XYZProps; colZ : XYZProps }.

Definition identity_columns : Columns :=
  {| colX := {| x := 1; y := 0; z := 0 |};
     colY := {| x := 0; y := 1; z := 0 |};
     colZ := {| x := 0; y := 0; z := 1 |} |}.

Definition columns_isIdentity (m : Columns) : bool :=
  xyz_eqb (colX m) (colX identity_columns)
  && xyz_eqb (colY m) (colY identity_columns)
  && xyz_eqb (colZ m) (colZ identity_columns).

Record Affine : Type := { cols : Columns; translation : XYZProps }.

Definition affine_apply (t : Affine) (p : XYZProps) : XYZProps :=
  xyz_add (translation t)
    (xyz_add (xyz_scale (x p) (colX (cols t)))
       (xyz_add (xyz_scale (y p) (colY (cols t))) (xyz_scale (z p) (colZ (cols t))))).

Definition affine_inverse (t : Affine) : option Affine :=
  if columns_isIdentity (cols t)
  then Some {| cols := identity_columns;
               translation := {| x := 0 - x (translation t);
                                 y := 0 - y (translation t);
                                 z := 0 - z (translation t) |} |}
  else None.

Definition Box : Type := option (XYZProps * XYZProps).

Definition box_extend (a b : Box) : Box :=
  match a with
  | None => b
  | Some _ => match b with None => a | Some _ => b end
  end.

Definition box_center (b : Box) : XYZProps :=
  match b with
  | Some (lo, hi) => xyz_scale 0.5 (xyz_add lo hi)
  | None => {| x := 0; y := 0; z := 0 |}
  end.

Definition box_map (t : Affine) (b : Box) : Box :=
  match b with
  | Some (lo, hi) => Some (affine_apply t lo, affine_apply t hi)
  | None => None
  end.

Definition types : GeometryTypes :=
  {| Range3d := Box;
     Matrix3d := Columns;
     Transform := Affine;
     YawPitchRollAngles := YawPitchRollProps;
     EcefLocation := XYZProps |}.

Definition num_at (items : list JsValue) (i : nat) : float := number_of (index items i).

(** A column-major array of sixteen numbers. *)
Definition affine_of_json (v : JsValue) : option Affine :=
  match v with
  | VArr items =>
      if (16 <=? length items)%nat then
        Some {| cols :=
                  {| colX := {| x := num_at items 0; y := num_at items 1; z := num_at items 2 |};
                     colY := {| x := num_at items 4; y := num_at items 5; z := num_at items 6 |};
                     colZ := {| x := num_at items 8; y := num_at items 9; z := num_at items 10 |} |};
                translation :=
                  {| x := num_at items 12; y := num_at items 13; z := num_at items 14 |} |}
      else None
  | _ => None
  end.

(** A [box] volume: a centre followed by three half-axes, of which the
    diagonal entries are used. *)
Definition box_of_json (v : JsValue) : option (@RealityModelRange types) :=
  match get v "box" with
  | Returned (VArr items) =>
      if (12 <=? length items)%nat then
        let c := {| x := num_at items 0; y := num_at items 1; z := num_at items 2 |} in
        let h := {| x := num_at items 3; y := num_at items 7; z := num_at items 11 |} in
        Some {| range := Some (xyz_add c (xyz_scale (-1) h), xyz_add c h) : @Range3d types |}
      else None
  | _ => None
  end.

Definition geometry : @GeometryLibrary types :=
  {| Range3d_new := None : @Range3d types;
     Range3d_createNull := None : @Range3d types;
     Range3d_create := fun lo hi => Some (lo, hi);
     Range3d_createXYZXYZ := fun x0 y0 z0 x1 y1 z1 =>
       Some ({| x := x0; y := y0; z := z0 |}, {| x := x1; y := y1; z := z1 |});
     Range3d_fromJSON := fun r => r;
     extendRange := box_extend;
     center := box_center;
     localXYZToWorld := fun r fx fy fz =>
       match r with
       | Some (lo, hi) =>
           Some {| x := x lo + fx * (x hi - x lo);
                   y := y lo + fy * (y hi - y lo);
                   z := z lo + fz * (z hi - z lo) |}
       | None => None
       end;
     magnitude := fun p => PrimFloat.sqrt (x p * x p + y p * y p + z p * z p);
     Vector3d_createFrom := fun v => v;
     isIdentity := columns_isIdentity;
     columnX := colX;
     columnY := colY;
     Transform_createIdentity :=
       {| cols := identity_columns; translation := {| x := 0; y := 0; z := 0 |} |};
     matrix := cols;
     inverse := affine_inverse;
     multiplyRange := box_map;
     multiplyPoint3d := affine_apply;
     YawPitchRollAngles_tryFromTransform := fun t =>
       Some {| ta_origin := translation t;
               ta_angles := Some ({| yaw := 0; pitch := 0; roll := 0 |}
                                  : @YawPitchRollAngles types) |};
     Cartographic_createZero := {| longitude := 0; latitude := 0; height := 0 |};
     Cartographic_fromRadians := fun c => c;
     Cartographic_fromDegrees := fun c => c;
     Cartographic_fromEcef := fun p =>
       Some {| longitude := x p; latitude := y p; height := z p |};
     toEcef := fun c => {| x := longitude c; y := latitude c; z := height c |};
     EcefLocation_new := fun p => origin p;
     EcefLocation_createFromCartographicOrigin := fun c _ =>
       {| x := longitude c; y := latitude c; z := height c |};
     getTransform := fun e => {| cols := identity_columns; translation := e |};
     transformFromJson := affine_of_json;
     rangeFromBoundingVolume := box_of_json |}.

(** An engine whose strings are ASCII. *)
Definition strings : StringPrototype :=
  {| toUpperCase := ascii_toUpperCase;
     toUpperCase_ascii := fun _ _ => eq_refl |}.

(** A point-cloud service that knows one file. *)
Definition bounds0 : OrbitGtBounds :=
  {| getMinX := 0; getMinY := 0; getMinZ := 0; getMaxX := 2; getMaxY := 4; getMaxZ := 6 |}.

Definition orbitgt (crs : option string) : OrbitGT :=
  {| PointCloudReader := option string;
     UrlFS_getFileLength := fun _ => Returned 4096%Z;
     OnlineEngine_create := Returned tt;
     OPCReader_openFile := fun _ _ _ => Returned crs;
     getFileBounds := fun _ => bounds0;
     getFileCRS := fun r => r;
     prepareForArea := fun _ _ => Returned tt;
     OrbitGtBounds_new := bounds0;
     CRSManager_transformBounds := fun b _ _ => b |}.

(** A server that answers every request with the given document. *)
Definition browser (doc : JsValue) : Browser :=
  {| fetch := fun _ => Returned {| ok := true; json := Returned doc |} |}.

Definition record (type : string) : ITwinRealityData :=
  {| rd_id := "rd-1";
     rd_displayName := Some "Model";
     rd_type := Some type;
     rd_rootDocument := None;
     rd_description := None;
     getBlobUrl := fun _ path => Returned ("https://blob/" ++ path) |}.

Definition client (answer : Outcome ITwinRealityData) : RealityDataAccessClient :=
  {| getRealityData := fun _ _ _ => answer |}.

Definition manager (answer : Outcome ITwinRealityData) : RealityDataManager :=
  {| _iTwinId := "itwin-1"; _realityDataId := "rd-1"; _rdaClient := client answer |}.

Definition render : RenderLibrary :=
  {| ColorDef := Z;
     ColorDef_white := 16777215%Z;
     ColorDef_black := 0%Z;
     adjustedForContrast := fun c _ => c;
     withAlpha := fun c a => (c + a * 16777216)%Z |}.

(** Root documents. *)
Definition region_doc : JsValue :=
  VObj [("root", VObj [("boundingVolume",
     VObj [("region", VArr [VNum 0; VNum 0; VNum 1; VNum 1; VNum 0; VNum 10])])])].

Definition no_volume_doc : JsValue := VObj [("root", VObj [])].

(** A box of half-size 1 around a centre. *)
Definition box_volume (cx cy cz : float) : JsValue :=
  VObj [("box", VArr [VNum cx; VNum cy; VNum cz;
                      VNum 1; VNum 0; VNum 0;
                      VNum 0; VNum 1; VNum 0;
                      VNum 0; VNum 0; VNum 1])].

Definition box_doc (cx cy cz : float) : JsValue :=
  VObj [("root", VObj [("boundingVolume", box_volume cx cy cz)])].

(** A quarter turn around the vertical axis, then a move to (10, 20, 30),
    column by column. *)
Definition quarter_turn : JsValue :=
  VArr [VNum 0; VNum 1; VNum 0; VNum 0;
        VNum (-1); VNum 0; VNum 0; VNum 0;
        VNum 0; VNum 0; VNum 1; VNum 0;
        VNum 10; VNum 20; VNum 30; VNum 1].

Definition rotated_doc : JsValue :=
  VObj [("root", VObj [("transform", quarter_turn);
                       ("boundingVolume", box_volume 0 0 0)])].

(** A caught fault that carries an error code. *)
Definition fault (code : float) : JsValue :=
  VObj [("message", VStr "request failed"); ("errorNumber", VNum code)].

Definition sample_extents : @Range3d types :=
  Some ({| x := 0; y := 0; z := 0 |}, {| x := 1; y := 1; z := 1 |}).

Definition sample_context : @RangeDecorator.DecorateContext render :=
  {| RangeDecorator.isSpatialView := true;
     RangeDecorator.backgroundColor := (0%Z : @ColorDef render) |}.

End Sample.

(** ** Vocabulary of the statements *)

(** The world after one more notification. *)
Definition notify (w : World) (t : Toast) : World :=
  {| toasts := toasts w ++ [t];
     opened := opened w;
     Downloader_INSTANCE := Downloader_INSTANCE w;
     CRSManager_ENGINE := CRSManager_ENGINE w |}.

(** The world after a point-cloud file was opened through [file]. *)
Definition opened_through (w : World) (file : PageCachedFile) : World :=
  {| toasts := toasts w;
     opened := opened w ++ [file];
     Downloader_INSTANCE := true;
     CRSManager_ENGINE := true |}.

(** The type tags the viewer supports, as the specification spells them. *)
Definition supported_types : list string :=
  ["OPC"; "Cesium3DTiles"; "PNTS"; "RealityMesh3DTiles"; "Terrain3DTiles"].

(** The declared type is none of the supported ones, whatever the case of
    its letters; a record without a type is unsupported too. *)
Definition unsupported {S : StringPrototype} (type : option string) : Prop :=
  forall t tag, type = Some t -> tag ∈ supported_types ->
    toUpperCase t <> toUpperCase tag.

(** [rootDoc] has the root [root], and the [boundingVolume] property of that
    root reads [bv] ([undefined] when the root declares none). *)
Definition root_bounding_volume (rootDoc root bv : JsValue) : Prop :=
  get rootDoc "root" = Returned root /\
  is_undefined root = false /\
  get root "boundingVolume" = Returned bv.

(** A region-form document: its bounding volume declares the region
    [region], an array of numbers. *)
Definition region_form (rootDoc : JsValue) (region : list float) : Prop :=
  exists root bv,
    root_bounding_volume rootDoc root bv /\
    get bv "region" = Returned (VArr (VNum <$> region)).

(** A transform-form document: its bounding volume declares no region, and
    [transform] is what its root declares as transform ([undefined] when it
    declares none). *)
Definition transform_form (rootDoc bv transform : JsValue) : Prop :=
  exists root region,
    root_bounding_volume rootDoc root bv /\
    get bv "region" = Returned region /\
    truthy region = false /\
    get root "transform" = Returned transform.

Section Vocabulary.
Context {T : GeometryTypes} {G : GeometryLibrary}.

(** Line 294-295: the declared transform, the identity when there is none. *)
Definition worldToEcefTransform_of (transform : JsValue) : Transform :=
  default Transform_createIdentity (transformFromJson transform).

(** Line 292, 309 and 341: the extents returned for a range in Earth-centred
    coordinates. *)
Definition worldRange_of (ecefRange : Range3d) : Range3d :=
  extendRange Range3d_new (Range3d_fromJSON ecefRange).

(** Entry [i] of a region, as the arithmetic of lines 273-288 reads it. *)
Definition region_entry (region : list float) (i : nat) : float :=
  number_of (index (VNum <$> region) i).

(** Lines 284-288: the midpoint of the region. *)
Definition region_midpoint (region : list float) : Cartographic :=
  Cartographic_fromRadians
    {| longitude := (region_entry region 0 + region_entry region 2) / 2;
       latitude := (region_entry region 1 + region_entry region 3) / 2;
       height := (region_entry region 4 + region_entry region 5) / 2 |}.

(** Line 290: the frame at the midpoint of the region. *)
Definition region_frame (region : list float) : EcefLocation :=
  EcefLocation_createFromCartographicOrigin (region_midpoint region) None.

(** Lines 325-332: the frame built from the transform itself. *)
Definition frame_of_transform (t : Transform) (lo_origin : XYZProps)
    (angles : YawPitchRollAngles) : EcefLocation :=
  EcefLocation_new
    {| origin := lo_origin;
       orientation := orientation_angles angles;
       xVector := Some (Vector3d_createFrom (columnX (matrix t)));
       yVector := Some (Vector3d_createFrom (columnY (matrix t))) |}.

End Vocabulary.

Section DecoratorVocabulary.
Context {T : GeometryTypes} {R : RenderLibrary}.
Import RangeDecorator.

(** The registered decorators are exactly the current singleton, and the
    singleton holds the listener remover that drops it. *)
Definition singleton_registered (s : App) : Prop :=
  decorators s = option_list (_decorator s)
  /\ forall d, _decorator s = Some d ->
       exists o, heap s !! d = Some o /\ _removeDecorationListener o = Some d.

End DecoratorVocabulary.

(** The notification [fetchRealityData] shows for a fault that carries the
    numeric error code [code], if any. *)
Definition coded_notification (code : float) : option string :=
  if PrimFloat.eqb code 401 then Some "Unauthorized"
  else if PrimFloat.eqb code 404 then Some "NotFound"
  else if PrimFloat.eqb code 422 then Some "SomethingWentWrong"
  else None.

(** [w'] is [w] after at most one more notification; nothing else differs. *)
Definition at_most_one_toast (w w' : World) : Prop :=
  w' = w \/ exists t, w' = notify w t.

(** The tile-set type tags, as the specification spells them. *)
Definition tile_types : list string :=
  ["Cesium3DTiles"; "PNTS"; "RealityMesh3DTiles"; "Terrain3DTiles"].

(** The declared type is [tag], whatever the case of its letters. *)
Definition declared_as {S : StringPrototype} (type : option string) (tag : string)
  : Prop :=
  exists t, type = Some t /\ t <> "" /\ toUpperCase t = toUpperCase tag.

Section OutcomeVocabulary.
Context {T : GeometryTypes}.

(** The shapes a geo-location derivation started in [w] can end in: a
    [GeoLocation] with both fields and no notification, [undefined] after at
    most one notification, or a thrown value and no notification. *)
Definition derivation_outcome (w : World)
    (res : Outcome (option GeoLocation) * World) : Prop :=
  match res with
  | (Returned (Some g), w') =>
      toasts w' = toasts w /\ is_Some (location g) /\ is_Some (extents g)
  | (Returned None, w') =>
      toasts w' = toasts w \/ exists t, toasts w' = (toasts w ++ [t])%list
  | (Thrown _, w') => toasts w' = toasts w
  end.

End OutcomeVocabulary.

Section ExtentsVocabulary.
Context {T : GeometryTypes} {R : RenderLibrary}.
Import RangeDecorator.

(** The extents stored in the current singleton, if there is one. *)
Definition current_extents (s : App) : option Range3d :=
  d ← _decorator s; o ← heap s !! d; Some (_extents o).

(** The two outlines [decorate] draws around [e] in a spatial view. *)
Definition outlines (context : DecorateContext) (e : Range3d) : list Decoration :=
  decorate {| _removeDecorationListener := None; _extents := e |} context.

End ExtentsVocabulary.

(** ** The viewer application and the debug widget

    The parts of [src/DebugWidget.tsx] that use the manager and the
    decorator. *)

Section Application.
Context {T : GeometryTypes} {G : GeometryLibrary} {P : OrbitGT} {B : Browser}
        {S : StringPrototype}.

(** The test of lines 168-173: the reality data is rendered only when it is
    geo-located. *)
Definition renderable (rdProps : RealityDataProps) : bool :=
  match geoLocation rdProps with
  | Some g =>
      match location g, extents g, realityData rdProps with
      | Some _, Some _, Some _ => true
      | _, _, _ => false
      end
  | None => false
  end.

(** Lines 166-174: the blank connection the application opens for the
    loaded reality data, if it opens one. *)
Definition initialize_connection (rdManager : RealityDataManager)
    (rdProps : RealityDataProps) : option BlankConnectionProps :=
  if renderable rdProps then Some (getBlankConnection rdManager rdProps) else None.

End Application.

Module DebugWidget.
Section Widget.
Context {T : GeometryTypes} {R : RenderLibrary}.
Import RangeDecorator.

(** What the widget reads of the active connection. *)
Record IModelConnection : Type := { projectExtents : Range3d }.

(** The [extentsVisible] state of the widget and the state of the
    decorator class. *)
Record WidgetState : Type := {
  extentsVisible : bool;
  decoration : App
}.

Definition initial_widget : WidgetState :=
  {| extentsVisible := false; decoration := initial |}.

(** Lines 26-36: the click handler of the Extents Box button, run with the
    state of the current render. *)
Definition onClick (iModelConnection : option IModelConnection) (st : WidgetState)
  : WidgetState :=
  match iModelConnection with
  | None => st
  | Some connection =>
      if negb (extentsVisible st) then
        {| extentsVisible := true;
           decoration := (getOrCreate (projectExtents connection) (decoration st)).2 |}
      else
        {| extentsVisible := false; decoration := dispose (decoration st) |}
  end.

(** A sequence of clicks, each with the connection active at that time. *)
Definition clicks (connections : list (option IModelConnection)) (st : WidgetState)
  : WidgetState :=
  fold_left (fun st c => onClick c st) connections st.

End Widget.
End DebugWidget.

(** ** More sample data *)

Module Fixtures.
Import Sample.

(** A server that answers every request with a response that is not ok. *)
Definition refusing_browser : Browser :=
  {| fetch := fun _ => Returned {| ok := false; json := Thrown (VStr "no body") |} |}.

(** A root document whose region is a number. *)
Definition bad_region_doc : JsValue :=
  VObj [("root", VObj [("boundingVolume", VObj [("region", VNum 5)])])].

(** The sample geometry, except that no angles are ever extracted from a
    transform. *)
Definition geometry_without_angles : @GeometryLibrary types :=
  {| Range3d_new := @Range3d_new types geometry;
     Range3d_createNull := @Range3d_createNull types geometry;
     Range3d_create := @Range3d_create types geometry;
     Range3d_createXYZXYZ := @Range3d_createXYZXYZ types geometry;
     Range3d_fromJSON := @Range3d_fromJSON types geometry;
     extendRange := @extendRange types geometry;
     center := @center types geometry;
     localXYZToWorld := @localXYZToWorld types geometry;
     magnitude := @magnitude types geometry;
     Vector3d_createFrom := @Vector3d_createFrom types geometry;
     isIdentity := @isIdentity types geometry;
     columnX := @columnX types geometry;
     columnY := @columnY types geometry;
     Transform_createIdentity := @Transform_createIdentity types geometry;
     matrix := @matrix types geometry;
     inverse := @inverse types geometry;
     multiplyRange := @multiplyRange types geometry;
     multiplyPoint3d := @multiplyPoint3d types geometry;
     YawPitchRollAngles_tryFromTransform := fun _ => None;
     Cartographic_createZero := @Cartographic_createZero types geometry;
     Cartographic_fromRadians := @Cartographic_fromRadians types geometry;
     Cartographic_fromDegrees := @Cartographic_fromDegrees types geometry;
     Cartographic_fromEcef := @Cartographic_fromEcef types geometry;
     toEcef := @toEcef types geometry;
     EcefLocation_new := @EcefLocation_new types geometry;
     EcefLocation_createFromCartographicOrigin :=
       @EcefLocation_createFromCartographicOrigin types geometry;
     getTransform := @getTransform types geometry;
     transformFromJson := @transformFromJson types geometry;
     rangeFromBoundingVolume := @rangeFromBoundingVolume types geometry |}.

(** What [getRealityDataProps] returns for the sample record declared as
    "LAS". *)
Definition las_props : @RealityDataProps types :=
  {| realityData :=
       Some {| rdSourceKey := {| provider := ContextShare; format := ThreeDTile;
                                 key_id := "rd-1" |};
               tilesetUrl := "https://blob/";
               name := Some "Model";
               description := None;
               realityDataId := Some "rd-1" |};
     geoLocation := None |}.

(** The long s (U+017F), in UTF-8. *)
Definition long_s : string :=
  String (Ascii.ascii_of_nat 197) (String (Ascii.ascii_of_nat 191) EmptyString).

(** Upper-casing that also maps the long s to S. *)
Fixpoint long_s_toUpperCase (s : string) : string :=
  match s with
  | EmptyString => EmptyString
  | String c rest =>
      match rest with
      | String c' rest' =>
          if Ascii.eqb c (Ascii.ascii_of_nat 197) && Ascii.eqb c' (Ascii.ascii_of_nat 191)
          then String (Ascii.ascii_of_nat 83) (long_s_toUpperCase rest')
          else String (upper_ascii c) (long_s_toUpperCase rest)
      | EmptyString => String (upper_ascii c) EmptyString
      end
  end.

(** An engine whose [toUpperCase] knows the long s. *)
Definition long_s_strings : StringPrototype.
Proof.
  refine {| toUpperCase := long_s_toUpperCase |}.
  induction s as [|c rest IH]; [reflexivity |].
  cbn [ascii_only]. intros [Hc Hrest]%andb_true_iff.
  cbn [long_s_toUpperCase ascii_toUpperCase].
  destruct rest as [|c' rest']; [reflexivity |].
  destruct (Ascii.eqb_spec c (Ascii.ascii_of_nat 197)) as [-> | _];
    [discriminate Hc |].
  cbn [andb]. f_equal. exact (IH Hrest).
Defined.

(** The sample record, its type spelled with a long s at the end. *)
Definition long_s_record : ITwinRealityData := record ("pnt" ++ long_s).

Definition sample_connection : @DebugWidget.IModelConnection types :=
  {| DebugWidget.projectExtents := sample_extents |}.

(** The decorator after one call of [getOrCreate] on the sample extents. *)
Definition active_app : @RangeDecorator.App types :=
  (RangeDecorator.getOrCreate sample_extents RangeDecorator.initial).2.

End Fixtures.

(** ** Facts about the monad *)

Lemma bind_returned {A B} (m : Async A) (k : A -> Async B) w a w' :
  m w = (Returned a, w') -> bind m k w = k a w'.
Proof. intros H. unfold bind. rewrite H. reflexivity. Qed.

Lemma bind_thrown {A B} (m : Async A) (k : A -> Async B) w e w' :
  m w = (Thrown e, w') -> bind m k w = (Thrown e, w').
Proof. intros H. unfold bind. rewrite H. reflexivity. Qed.

Lemma bind_await {A B} (o : Outcome A) (k : A -> Async B) w a :
  o = Returned a -> bind (await o) k w = k a w.
Proof. intros ->. reflexivity. Qed.

Lemma bind_deref {A B} (o : option A) (k : A -> Async B) w a :
  o = Some a -> bind (deref o) k w = k a w.
Proof. intros ->. reflexivity. Qed.

Lemma toast_then {A} content type (a : A) w :
  bind (toaster_negative content type) (fun _ => ret a) w
  = (Returned a, notify w (negative content type)).
Proof. reflexivity. Qed.

(** Reading a property of a value that has properties never throws. *)
Lemma get_returned_total v key key' r :
  get v key = Returned r -> exists r', get v key' = Returned r'.
Proof. destruct v; simpl; intros H; try discriminate; eauto. Qed.

(** ** The metadata fetch *)

Section FetchFacts.
Context {T : GeometryTypes} {G : GeometryLibrary} {P : OrbitGT} {B : Browser}
        {S : StringPrototype}.

(** What the handler of [fetchRealityData] does with a caught object that
    carries an [errorNumber]. *)
Lemma fetchRealityData_caught this token fields code w :
  getRealityData (_rdaClient this) token (_iTwinId this) (_realityDataId this)
    = Thrown (VObj fields) ->
  own_property fields "errorNumber" = Some code ->
  fetchRealityData this token w
  = ((when strict_eq_num code 401 then toaster_negative "Unauthorized" "persisting") ;;;
     (when strict_eq_num code 404 then toaster_negative "NotFound" "persisting") ;;;
     (when strict_eq_num code 422 then toaster_negative "SomethingWentWrong" "persisting") ;;;
     ret None) w.
Proof.
  intros Hget Hown.
  unfold fetchRealityData, try_catch, bind at 1, await.
  rewrite Hget. cbn [truthy typeof_object hasOwn andb].
  rewrite Hown. rewrite bool_decide_eq_true_2 by eauto.
  unfold bind. cbn.
  destruct (strict_eq_num code 401), (strict_eq_num code 404), (strict_eq_num code 422);
    reflexivity.
Qed.

(** A fault that carries error code 404 is reported once, as not found, and
    the result is the empty [RealityDataProps]. *)
Lemma getRealityDataProps_not_found this token fields w :
  getRealityData (_rdaClient this) token (_iTwinId this) (_realityDataId this)
    = Thrown (VObj fields) ->
  own_property fields "errorNumber" = Some (VNum 404) ->
  getRealityDataProps this token w
  = (Returned {| realityData := None; geoLocation := None |},
     notify w (negative "NotFound" "persisting")).
Proof.
  intros Hget Hown. unfold getRealityDataProps.
  erewrite bind_returned;
    [| rewrite (fetchRealityData_caught _ _ _ _ _ Hget Hown); reflexivity].
  reflexivity.
Qed.

(** A fault that carries no [errorNumber] is reported once, as unexpected. *)
Lemma fetchRealityData_unexpected this token error w :
  getRealityData (_rdaClient this) token (_iTwinId this) (_realityDataId this)
    = Thrown error ->
  hasOwn error "errorNumber" = false ->
  fetchRealityData this token w
  = (Returned None, notify w (negative "SomethingWentWrongUnexpected" "persisting")).
Proof.
  intros Hget Hown.
  unfold fetchRealityData, try_catch, bind at 1, await.
  rewrite Hget, Hown, !andb_false_r. reflexivity.
Qed.

(** C3, at the input where the code departs from it: a fault whose error
    code is none of 401, 404 and 422 (500, say) is swallowed without any
    notification; the claim asks for one notification of the unexpected
    class. *)
Theorem fetchRealityData_other_code_silent this token fields n w :
  getRealityData (_rdaClient this) token (_iTwinId this) (_realityDataId this)
    = Thrown (VObj fields) ->
  own_property fields "errorNumber" = Some (VNum n) ->
  PrimFloat.eqb n 401 = false ->
  PrimFloat.eqb n 404 = false ->
  PrimFloat.eqb n 422 = false ->
  fetchRealityData this token w = (Returned None, w)
  /\ getRealityDataProps this token w
     = (Returned {| realityData := None; geoLocation := None |}, w).
Proof.
  intros Hget Hown H401 H404 H422.
  assert (Hfetch : fetchRealityData this token w = (Returned None, w)).
  { rewrite (fetchRealityData_caught _ _ _ _ _ Hget Hown).
    unfold bind. cbn [strict_eq_num]. rewrite H401, H404, H422. reflexivity. }
  split; [exact Hfetch |].
  unfold getRealityDataProps. erewrite bind_returned by exact Hfetch. reflexivity.
Qed.

End FetchFacts.

(** ** Dispatch on the declared type *)

Section DispatchFacts.
Context {T : GeometryTypes} {G : GeometryLibrary} {P : OrbitGT} {B : Browser}
        {S : StringPrototype}.

Lemma type_is_unsupported type tag :
  unsupported type -> tag ∈ supported_types ->
  type_is type (toUpperCase tag) = false.
Proof.
  intros Hun Htag. destruct type as [t|]; [|reflexivity].
  unfold type_is. apply andb_false_intro2.
  apply String.eqb_neq. eauto.
Qed.

(** C9: a record whose declared type is none of the five supported ones,
    whatever the case of its letters, gets no geo-location ([undefined]) and
    exactly one notification, the unsupported-type one, once the URL of its
    root document has been obtained. *)
Theorem getRealityDataGeoLocation_unsupported token rd url w :
  getBlobUrl rd token (rootDocName rd) = Returned url ->
  unsupported (rd_type rd) ->
  getRealityDataGeoLocation token rd w
  = (Returned None, notify w (negative "NotSupported" "persisting")).
Proof.
  intros Hurl Hun. unfold getRealityDataGeoLocation.
  rewrite (bind_await _ _ _ _ Hurl).
  assert (Hno : forall tag, tag ∈ supported_types ->
            type_is (rd_type rd) (toUpperCase tag) = false)
    by (intros; by apply type_is_unsupported).
  pose proof (Hno "OPC") as H1.
  pose proof (Hno "Cesium3DTiles") as H2.
  pose proof (Hno "PNTS") as H3.
  pose proof (Hno "RealityMesh3DTiles") as H4.
  pose proof (Hno "Terrain3DTiles") as H5.
  rewrite (toUpperCase_ascii "OPC" eq_refl) in H1.
  rewrite (toUpperCase_ascii "Cesium3DTiles" eq_refl) in H2.
  rewrite (toUpperCase_ascii "PNTS" eq_refl) in H3.
  rewrite (toUpperCase_ascii "RealityMesh3DTiles" eq_refl) in H4.
  rewrite (toUpperCase_ascii "Terrain3DTiles" eq_refl) in H5.
  change (ascii_toUpperCase "OPC") with "OPC" in H1.
  change (ascii_toUpperCase "Cesium3DTiles") with "CESIUM3DTILES" in H2.
  change (ascii_toUpperCase "PNTS") with "PNTS" in H3.
  change (ascii_toUpperCase "RealityMesh3DTiles") with "REALITYMESH3DTILES" in H4.
  change (ascii_toUpperCase "Terrain3DTiles") with "TERRAIN3DTILES" in H5.
  rewrite H1, H2, H3, H4, H5 by (unfold supported_types; set_solver).
  reflexivity.
Qed.

End DispatchFacts.

(** ** The blank connection *)

Section ConnectionFacts.
Context {T : GeometryTypes} {G : GeometryLibrary} {P : OrbitGT} {B : Browser}
        {S : StringPrototype}.

(** C10: [getBlankConnection] fills in every field.  From the empty
    [RealityDataProps] it gives the name "Reality Data", the cartographic
    point of longitude 0, latitude 0 and height 0, and the null range; a name,
    a location or extents that the input carries are passed through
    unchanged, and each one that is missing gets its default. *)
Theorem getBlankConnection_defaults this props :
  getBlankConnection this {| realityData := None; geoLocation := None |}
  = {| bc_name := "Reality Data";
       bc_location :=
         loc_Cartographic
           (Cartographic_fromDegrees {| longitude := 0; latitude := 0; height := 0 |});
       bc_extents := Range3d_createNull;
       bc_iTwinId := _iTwinId this |}
  /\ bc_iTwinId (getBlankConnection this props) = _iTwinId this
  /\ bc_name (getBlankConnection this props)
     = default "Reality Data" (realityData props ≫= name)
  /\ bc_location (getBlankConnection this props)
     = default (bc_location (getBlankConnection this
                               {| realityData := None; geoLocation := None |}))
               (geoLocation props ≫= location)
  /\ bc_extents (getBlankConnection this props)
     = default Range3d_createNull (geoLocation props ≫= extents).
Proof.
  unfold getBlankConnection; cbn.
  split; [reflexivity |]. split; [reflexivity |].
  split; [by destruct (realityData props ≫= name) |].
  split; [by destruct (geoLocation props ≫= location)
         | by destruct (geoLocation props ≫= extents)].
Qed.

End ConnectionFacts.

(** ** The root document *)

Section ParseFacts.
Context {T : GeometryTypes} {G : GeometryLibrary} {P : OrbitGT} {B : Browser}
        {S : StringPrototype}.

(** A document whose root declares no bounding volume makes
    [parseRootDocument] throw: the region is read off [undefined]. *)
Lemma parseRootDocument_no_boundingVolume rootDoc root w :
  root_bounding_volume rootDoc root VUndefined ->
  parseRootDocument rootDoc w = (Thrown TypeError, w).
Proof.
  intros (Hroot & Hdef & Hbv). unfold parseRootDocument.
  rewrite (bind_await _ _ _ _ Hroot), Hdef, (bind_await _ _ _ _ Hbv).
  reflexivity.
Qed.

(** A document without a root is reported once and gives [undefined]. *)
Lemma parseRootDocument_no_root rootDoc w :
  get rootDoc "root" = Returned VUndefined ->
  parseRootDocument rootDoc w
  = (Returned None, notify w (negative "RootDocMissingRootProperty" "persisting")).
Proof.
  intros Hroot. unfold parseRootDocument.
  rewrite (bind_await _ _ _ _ Hroot). reflexivity.
Qed.

(** C1, at the inputs where the code departs from it: for a region-form
    document the anchor at the midpoint of the region is computed, but that
    path of [parseRootDocument] ends without a return statement, so the
    result is [undefined] (or a [TypeError] when the frame at the midpoint
    has no inverse) and never a [GeoLocation]. *)
Theorem parseRootDocument_region_returns_undefined rootDoc region w :
  region_form rootDoc region ->
  parseRootDocument rootDoc w
  = (match inverse (getTransform (region_frame region)) with
     | Some _ => Returned None
     | None => Thrown TypeError
     end, w).
Proof.
  intros (root & bv & (Hroot & Hdef & Hbv) & Hregion). unfold parseRootDocument.
  rewrite (bind_await _ _ _ _ Hroot), Hdef, (bind_await _ _ _ _ Hbv),
    (bind_await _ _ _ _ Hregion).
  cbn [truthy parseRegion asArray].
  fold (region_entry region 0) (region_entry region 1) (region_entry region 2)
       (region_entry region 3) (region_entry region 4) (region_entry region 5).
  cbv zeta. fold (region_midpoint region). fold (region_frame region).
  by destruct (inverse (getTransform (region_frame region))).
Qed.

(** C2, at an input where the code departs from it: the root document of a
    tile set is downloaded and has a root, but the root declares no bounding
    volume.  Reading the region then throws a [TypeError] that nothing
    catches: it leaves [getRealityDataGeoLocation], and [getRealityDataProps]
    with it, and no notification is shown. *)
Theorem getRealityDataGeoLocation_throws token rd url response rootDoc root w :
  rd_type rd = Some "Cesium3DTiles" ->
  getBlobUrl rd token (rootDocName rd) = Returned url ->
  fetch url = Returned response ->
  ok response = true ->
  json response = Returned rootDoc ->
  root_bounding_volume rootDoc root VUndefined ->
  getRealityDataGeoLocation token rd w = (Thrown TypeError, w)
  /\ forall this tileset,
       getRealityData (_rdaClient this) token (_iTwinId this) (_realityDataId this)
         = Returned rd ->
       getBlobUrl rd token "" = Returned tileset ->
       getRealityDataProps this token w = (Thrown TypeError, w).
Proof.
  intros Htype Hurl Hfetch Hok Hjson Hdoc.
  assert (Hgeo : getRealityDataGeoLocation token rd w = (Thrown TypeError, w)).
  { unfold getRealityDataGeoLocation.
    rewrite (bind_await _ _ _ _ Hurl), Htype.
    unfold type_is. rewrite (toUpperCase_ascii "Cesium3DTiles" eq_refl).
    change (ascii_toUpperCase "Cesium3DTiles") with "CESIUM3DTILES".
    cbn [String.eqb Ascii.eqb Bool.eqb negb andb].
    cbn [orb].
    rewrite (bind_await _ _ _ _ Hfetch), Hok. cbn [negb].
    rewrite (bind_await _ _ _ _ Hjson).
    by apply parseRootDocument_no_boundingVolume with root. }
  split; [exact Hgeo |].
  intros this tileset Hrd Htiles.
  unfold getRealityDataProps, fetchRealityData, try_catch.
  unfold bind at 1 2, await at 1. rewrite Hrd. cbn [ret].
  rewrite (bind_await _ _ _ _ Htiles).
  by rewrite (bind_thrown _ _ _ _ _ Hgeo).
Qed.

(** A transform-form document is handled by the transform branch. *)
Lemma parseRootDocument_transform_form rootDoc bv transform w :
  transform_form rootDoc bv transform ->
  parseRootDocument rootDoc w
  = parseTransform Range3d_new
      (match get rootDoc "root" with Returned root => root | Thrown _ => VUndefined end)
      bv w.
Proof.
  intros (root & region & (Hroot & Hdef & Hbv) & Hregion & Hfalsy & _).
  unfold parseRootDocument.
  rewrite (bind_await _ _ _ _ Hroot), Hdef, (bind_await _ _ _ _ Hbv),
    (bind_await _ _ _ _ Hregion), Hfalsy, Hroot.
  reflexivity.
Qed.

(** C4: a transform-form document whose transform has the identity matrix
    (as the identity transform has) and whose bounding-volume centre is
    less than 100 km from the Earth's centre, or has a derived cartographic
    height below -5 km, is anchored at the Earth's centre with zero yaw,
    pitch and roll, whatever the bounding volume; the extents are the
    bounding range in Earth-centred coordinates. *)
Theorem parseRootDocument_degenerate_transform rootDoc bv transform rr w :
  transform_form rootDoc bv transform ->
  rangeFromBoundingVolume bv = Some rr ->
  let t := worldToEcefTransform_of transform in
  isIdentity (matrix t) = true ->
  (PrimFloat.ltb (magnitude (center (range rr))) 1.0e5 = true
   \/ exists cartoCenter,
        Cartographic_fromEcef (multiplyPoint3d t (center (range rr))) = Some cartoCenter
        /\ PrimFloat.ltb (height cartoCenter) (-5000) = true) ->
  parseRootDocument rootDoc w
  = (Returned (Some {| location := Some (loc_EcefLocationProps centerOfEarth);
                       extents := Some (worldRange_of (multiplyRange t (range rr))) |}),
     w).
Proof.
  intros Hform Hrange t Hid Hnear.
  rewrite (parseRootDocument_transform_form _ _ _ _ Hform).
  destruct Hform as (root & region & (Hroot & _ & _) & _ & _ & Htransform).
  rewrite Hroot. unfold parseTransform.
  rewrite (bind_await _ _ _ _ Htransform), (bind_deref _ _ _ _ Hrange).
  fold (worldToEcefTransform_of transform). fold t. cbv zeta. rewrite Hid.
  destruct Hnear as [Hnear | (cartoCenter & Hcarto & Hdeep)].
  - rewrite Hnear. reflexivity.
  - rewrite Hcarto, Hdeep, orb_true_r. reflexivity.
Qed.

(** C5: a transform-form document whose transform has a matrix other than
    the identity, from which yaw, pitch and roll angles are extracted, is
    anchored at the frame built from the transform itself: the origin is the
    origin extracted from the transform, the orientation is the extracted
    angles, and the x and y axes are the first two columns of its matrix.
    The extents are the bounding range moved to Earth-centred coordinates
    and then into that frame. *)
Theorem parseRootDocument_oriented_transform
    rootDoc bv transform rr lo angles ecefToWorld w :
  transform_form rootDoc bv transform ->
  rangeFromBoundingVolume bv = Some rr ->
  let t := worldToEcefTransform_of transform in
  isIdentity (matrix t) = false ->
  YawPitchRollAngles_tryFromTransform t = Some lo ->
  ta_angles lo = Some angles ->
  let frame := frame_of_transform t (ta_origin lo) angles in
  inverse (getTransform frame) = Some ecefToWorld ->
  parseRootDocument rootDoc w
  = (Returned
       (Some {| location := Some (loc_EcefLocation frame);
                extents :=
                  Some (worldRange_of
                          (multiplyRange ecefToWorld (multiplyRange t (range rr)))) |}),
     w).
Proof.
  intros Hform Hrange t Hid Hlo Hangles frame Hinv.
  rewrite (parseRootDocument_transform_form _ _ _ _ Hform).
  destruct Hform as (root & region & (Hroot & _ & _) & _ & _ & Htransform).
  rewrite Hroot. unfold parseTransform.
  rewrite (bind_await _ _ _ _ Htransform), (bind_deref _ _ _ _ Hrange).
  fold (worldToEcefTransform_of transform). fold t. cbv zeta.
  rewrite Hid. cbn [andb]. unfold usableOrientation.
  rewrite Hid, Hlo, Hangles. cbn [negb].
  unfold bind at 1. cbn [ret].
  fold (frame_of_transform t (ta_origin lo) angles). fold frame.
  rewrite (bind_deref _ _ _ _ Hinv). reflexivity.
Qed.

End ParseFacts.

(** ** Point clouds *)

Section PointCloudFacts.
Context {T : GeometryTypes} {G : GeometryLibrary} {P : OrbitGT} {B : Browser}
        {S : StringPrototype}.

Lemma ensure_CRSManager_ready w :
  CRSManager_ENGINE w = true \/ OnlineEngine_create = Returned tt ->
  ensure_CRSManager w
  = (Returned tt,
     {| toasts := toasts w; opened := opened w;
        Downloader_INSTANCE := Downloader_INSTANCE w; CRSManager_ENGINE := true |}).
Proof.
  intros Hengine. unfold ensure_CRSManager.
  destruct w as [ts os dl []]; cbn in *; [reflexivity |].
  destruct Hengine as [Hset | ->]; [discriminate | reflexivity].
Qed.

(** The first steps of [realityModelFromOPC]: the file is opened through a
    cache of 128 pages of 128 KiB. *)
Lemma realityModelFromOPC_opens blobFileURL size reader w :
  CRSManager_ENGINE w = true \/ OnlineEngine_create = Returned tt ->
  UrlFS_getFileLength blobFileURL = Returned size ->
  let blobFile :=
    {| pcf_fileName := blobFileURL; pcf_fileSize := size;
       pcf_pageSize := 131072; pcf_maxPageCount := 128 |} in
  OPCReader_openFile blobFile blobFileURL true = Returned reader ->
  realityModelFromOPC blobFileURL w = locateOPC reader (opened_through w blobFile).
Proof.
  intros Hengine Hsize blobFile Hopen. unfold realityModelFromOPC.
  erewrite bind_returned by reflexivity.
  erewrite bind_returned by (apply ensure_CRSManager_ready; exact Hengine).
  rewrite (bind_await _ _ _ _ Hsize).
  erewrite bind_returned; [reflexivity |].
  unfold OPCReader_open. change (128 * 1024)%Z with 131072%Z.
  fold blobFile. rewrite Hopen. reflexivity.
Qed.

(** C6: [realityModelFromOPC] opens the resource through a byte-range cache
    of 128 pages of 128 KiB (131072 bytes).  When the file carries no
    coordinate-reference-system tag, the anchor is the Earth's centre with
    zero yaw, pitch and roll, and the extents are the stored bounds.  When it
    carries one, the anchor is the frame at the cartographic centre of the
    Earth-centred bounds with its height set to zero, and the extents are the
    Earth-centred bounds expressed in that frame. *)
Theorem realityModelFromOPC_anchor blobFileURL size reader w :
  CRSManager_ENGINE w = true \/ OnlineEngine_create = Returned tt ->
  UrlFS_getFileLength blobFileURL = Returned size ->
  let blobFile :=
    {| pcf_fileName := blobFileURL; pcf_fileSize := size;
       pcf_pageSize := 131072; pcf_maxPageCount := 128 |} in
  OPCReader_openFile blobFile blobFileURL true = Returned reader ->
  let w' := opened_through w blobFile in
  let bounds := getFileBounds reader in
  (truthy_str (getFileCRS reader) = false ->
   realityModelFromOPC blobFileURL w
   = (Returned (Some {| location := Some (loc_EcefLocationProps centerOfEarth);
                        extents := Some (Range3d_ofBounds bounds) |}),
      w'))
  /\ (forall fileCrs ecefCenter cartoCenter ecefToWorld,
        getFileCRS reader = Some fileCrs ->
        fileCrs <> "" ->
        prepareForArea fileCrs bounds = Returned tt ->
        prepareForArea "4978" OrbitGtBounds_new = Returned tt ->
        let ecefRange :=
          Range3d_ofBounds (CRSManager_transformBounds bounds fileCrs "4978") in
        localXYZToWorld ecefRange 0.5 0.5 0.5 = Some ecefCenter ->
        Cartographic_fromEcef ecefCenter = Some cartoCenter ->
        let frame :=
          EcefLocation_createFromCartographicOrigin
            {| longitude := longitude cartoCenter;
               latitude := latitude cartoCenter;
               height := 0 |} None in
        inverse (getTransform frame) = Some ecefToWorld ->
        realityModelFromOPC blobFileURL w
        = (Returned (Some {| location := Some (loc_EcefLocation frame);
                             extents := Some (multiplyRange ecefToWorld ecefRange) |}),
           w')).
Proof.
  intros Hengine Hsize blobFile Hopen w' bounds.
  rewrite (realityModelFromOPC_opens _ _ _ _ Hengine Hsize Hopen).
  fold blobFile w'. unfold locateOPC. fold bounds. split.
  - intros Hno. unfold truthy_str in Hno.
    destruct (getFileCRS reader) as [fileCrs|]; [|reflexivity].
    by rewrite Hno.
  - intros fileCrs ecefCenter cartoCenter ecefToWorld Hcrs Hne Hprep1 Hprep2
      Hcenter Hcarto Hinv.
    rewrite Hcrs. apply String.eqb_neq in Hne. rewrite Hne. cbn [negb].
    rewrite (bind_await _ _ _ _ Hprep1), (bind_await _ _ _ _ Hprep2).
    rewrite (bind_deref _ _ _ _ Hcenter), (bind_deref _ _ _ _ Hcarto).
    rewrite (bind_deref _ _ _ _ Hinv). reflexivity.
Qed.

End PointCloudFacts.

(** ** The range decorator *)

Section DecoratorFacts.
Context {T : GeometryTypes} {R : RenderLibrary}.
Import RangeDecorator.

Lemma updateDecorationListener_decorator this add (s : App) :
  _decorator (updateDecorationListener this add s) = _decorator s.
Proof.
  unfold updateDecorationListener.
  destruct (heap s !! this) as [o|]; [|reflexivity].
  destruct (_removeDecorationListener o), add; reflexivity.
Qed.

Lemma constructor_decorator r (s : App) :
  _decorator (constructor r s).2 = Some (constructor r s).1.
Proof. unfold constructor. cbn [fst snd]. by rewrite updateDecorationListener_decorator. Qed.

(** C7: two successive calls of [getOrCreate], whatever the ranges, return
    the same instance, and the second call changes nothing: not the
    singleton, not the registered decorators, not the stored extents. *)
Theorem getOrCreate_twice_same_instance (s : App) (r1 r2 : Range3d) :
  (getOrCreate r2 (getOrCreate r1 s).2).1 = (getOrCreate r1 s).1
  /\ (getOrCreate r2 (getOrCreate r1 s).2).2 = (getOrCreate r1 s).2.
Proof.
  assert (Hactive : _decorator (getOrCreate r1 s).2 = Some (getOrCreate r1 s).1).
  { unfold getOrCreate. destruct (_decorator s) as [d|] eqn:Hd; [exact Hd |].
    apply constructor_decorator. }
  split; unfold getOrCreate at 1; rewrite Hactive; reflexivity.
Qed.

Lemma remove_first_singleton d : remove_first d [d] = [].
Proof. cbn. by rewrite Nat.eqb_refl. Qed.

Lemma singleton_registered_initial : singleton_registered (initial (T := T)).
Proof. split; [reflexivity | intros d Hd; discriminate]. Qed.

Lemma singleton_registered_getOrCreate r (s : App) :
  singleton_registered s -> singleton_registered (getOrCreate r s).2.
Proof.
  intros Hs. unfold getOrCreate.
  destruct (_decorator s) as [d|] eqn:Hd; [exact Hs |].
  destruct Hs as [Hreg _]. rewrite Hd in Hreg.
  unfold constructor, updateDecorationListener. cbn [fst snd heap].
  rewrite lookup_insert_eq. cbn. rewrite Hreg. split; [reflexivity |].
  intros d [= <-]. unfold set_listener. cbn [heap].
  rewrite lookup_alter_eq, lookup_insert_eq. cbn. eauto.
Qed.

Lemma dispose_spec (s : App) :
  singleton_registered s ->
  _decorator (dispose s) = None /\ decorators (dispose s) = [].
Proof.
  intros [Hreg Hown]. unfold dispose.
  destruct (_decorator s) as [d|] eqn:Hd; cbn in Hreg; [|by rewrite Hreg].
  destruct (Hown d eq_refl) as (o & Ho & Hrem).
  unfold stop, updateDecorationListener. rewrite Ho, Hrem. cbn.
  by rewrite Hreg, remove_first_singleton.
Qed.

Lemma singleton_registered_dispose (s : App) :
  singleton_registered s -> singleton_registered (dispose s).
Proof.
  intros Hs. destruct (dispose_spec s Hs) as [Hdec Hreg].
  split; [by rewrite Hdec, Hreg | intros d Hd; congruence].
Qed.

Lemma singleton_registered_updateExtents this r (s : App) :
  singleton_registered s -> singleton_registered (updateExtents this r s).
Proof.
  intros [Hreg Hown]. split; [exact Hreg |]. cbn. intros d Hd.
  destruct (Hown d Hd) as (o & Ho & Hrem).
  destruct (decide (this = d)) as [-> | Hne].
  - rewrite lookup_alter_eq, Ho. cbn. eauto.
  - rewrite lookup_alter_ne by done. eauto.
Qed.

Lemma reachable_singleton_registered (s : App) :
  reachable s -> singleton_registered s.
Proof.
  induction 1;
    eauto using singleton_registered_initial, singleton_registered_getOrCreate,
      singleton_registered_dispose, singleton_registered_updateExtents.
Qed.

(** C8: in every state of the application, after [dispose] the class is not
    active, no decorator is registered with the host any more, and a redraw
    request produces no decoration. *)
Theorem dispose_then_redraw_nothing (s : App) (context : DecorateContext) :
  reachable s ->
  isActive (dispose s) = false
  /\ decorators (dispose s) = []
  /\ redraw context (dispose s) = [].
Proof.
  intros Hs. apply reachable_singleton_registered in Hs.
  destruct (dispose_spec s Hs) as [Hdec Hreg].
  unfold isActive, redraw. by rewrite Hdec, Hreg.
Qed.

End DecoratorFacts.

(** ** Runs on the sample implementation *)

Section Runs.
Import Sample RangeDecorator.
#[local] Existing Instances types geometry render strings.

Lemma fetchRealityData_other_code_silent_witness :
  fetchRealityData (manager (Thrown (fault 500))) "token" initial_world
  = (Returned None, initial_world)
  /\ getRealityDataProps (P := orbitgt None) (B := browser VNull)
       (manager (Thrown (fault 500))) "token" initial_world
     = (Returned {| realityData := None; geoLocation := None |}, initial_world).
Proof.
  apply (fetchRealityData_other_code_silent (P := orbitgt None) (B := browser VNull)
           (manager (Thrown (fault 500))) "token"
           [("message", VStr "request failed"); ("errorNumber", VNum 500)] 500);
    reflexivity.
Defined.

(** A fault with code 404 on the sample client: one not-found notification
    and the empty result. *)
Example not_found_run :
  getRealityDataProps (P := orbitgt None) (B := browser VNull)
    (manager (Thrown (fault 404))) "token" initial_world
  = (Returned {| realityData := None; geoLocation := None |},
     notify initial_world (negative "NotFound" "persisting")).
Proof. reflexivity. Qed.

(** A record declared as a point cloud, in lower case, is read as one. *)
Example opc_run :
  getRealityDataGeoLocation (P := orbitgt None) (B := browser VNull)
    "token" (record "opc") initial_world
  = (Returned
       (Some {| location := Some (loc_EcefLocationProps centerOfEarth);
                extents := Some (Some ({| x := 0; y := 0; z := 0 |},
                                       {| x := 2; y := 4; z := 6 |})
                                 : @Range3d types) |}),
     opened_through initial_world
       {| pcf_fileName := "https://blob/Model.json"; pcf_fileSize := 4096;
          pcf_pageSize := 131072; pcf_maxPageCount := 128 |}).
Proof. reflexivity. Qed.

Lemma LAS_unsupported : unsupported (Some "LAS").
Proof.
  intros t tag [= <-] Htag. unfold supported_types in Htag.
  repeat (apply elem_of_cons in Htag as [-> | Htag]; [discriminate |]).
  by apply elem_of_nil in Htag.
Qed.

Lemma getRealityDataGeoLocation_unsupported_witness :
  getRealityDataGeoLocation (P := orbitgt None) (B := browser VNull)
    "token" (record "LAS") initial_world
  = (Returned None, notify initial_world (negative "NotSupported" "persisting")).
Proof.
  apply (getRealityDataGeoLocation_unsupported (P := orbitgt None) (B := browser VNull)
           "token" (record "LAS") "https://blob/Model.json").
  - reflexivity.
  - exact LAS_unsupported.
Defined.

Lemma region_doc_region_form : region_form region_doc [0; 0; 1; 1; 0; 10].
Proof. do 2 eexists. repeat split; reflexivity. Qed.

Lemma parseRootDocument_region_returns_undefined_witness :
  parseRootDocument region_doc initial_world = (Returned None, initial_world).
Proof.
  exact (parseRootDocument_region_returns_undefined
           region_doc [0; 0; 1; 1; 0; 10] initial_world region_doc_region_form).
Defined.

Lemma getRealityDataGeoLocation_throws_witness :
  getRealityDataGeoLocation (P := orbitgt None) (B := browser no_volume_doc)
    "token" (record "Cesium3DTiles") initial_world
  = (Thrown TypeError, initial_world)
  /\ getRealityDataProps (P := orbitgt None) (B := browser no_volume_doc)
       (manager (Returned (record "Cesium3DTiles"))) "token" initial_world
     = (Thrown TypeError, initial_world).
Proof.
  destruct (getRealityDataGeoLocation_throws
              (P := orbitgt None) (B := browser no_volume_doc)
              "token" (record "Cesium3DTiles") "https://blob/Model.json"
              {| ok := true; json := Returned no_volume_doc |}
              no_volume_doc (VObj []) initial_world
              eq_refl eq_refl eq_refl eq_refl eq_refl
              (conj eq_refl (conj eq_refl eq_refl)))
    as [Hgeo Hprops].
  split; [exact Hgeo |].
  exact (Hprops (manager (Returned (record "Cesium3DTiles"))) "https://blob/"
           eq_refl eq_refl).
Defined.

Lemma box_doc_transform_form : transform_form (box_doc 1 2 3) (box_volume 1 2 3) VUndefined.
Proof. do 2 eexists. repeat split; reflexivity. Qed.

Lemma parseRootDocument_degenerate_transform_witness :
  parseRootDocument (box_doc 1 2 3) initial_world
  = (Returned
       (Some {| location := Some (loc_EcefLocationProps centerOfEarth);
                extents := Some (Some ({| x := 0; y := 1; z := 2 |},
                                       {| x := 2; y := 3; z := 4 |})
                                 : @Range3d types) |}),
     initial_world).
Proof.
  exact (parseRootDocument_degenerate_transform
           (box_doc 1 2 3) (box_volume 1 2 3) VUndefined
           {| range := (Some ({| x := 0; y := 1; z := 2 |}, {| x := 2; y := 3; z := 4 |})
                        : @Range3d types) |}
           initial_world box_doc_transform_form eq_refl eq_refl
           (or_introl eq_refl)).
Defined.

Lemma rotated_doc_transform_form : transform_form rotated_doc (box_volume 0 0 0) quarter_turn.
Proof. do 2 eexists. repeat split; reflexivity. Qed.

Lemma parseRootDocument_oriented_transform_witness :
  parseRootDocument rotated_doc initial_world
  = (Returned
       (Some {| location :=
                  Some (loc_EcefLocation
                          ({| x := 10; y := 20; z := 30 |} : @EcefLocation types));
                extents := Some (Some ({| x := 1; y := -1; z := -1 |},
                                       {| x := -1; y := 1; z := 1 |})
                                 : @Range3d types) |}),
     initial_world).
Proof.
  exact (parseRootDocument_oriented_transform
           rotated_doc (box_volume 0 0 0) quarter_turn
           {| range := (Some ({| x := -1; y := -1; z := -1 |}, {| x := 1; y := 1; z := 1 |})
                        : @Range3d types) |}
           {| ta_origin := {| x := 10; y := 20; z := 30 |};
              ta_angles := Some ({| yaw := 0; pitch := 0; roll := 0 |}
                                 : @YawPitchRollAngles types) |}
           ({| yaw := 0; pitch := 0; roll := 0 |} : @YawPitchRollAngles types)
           ({| cols := identity_columns;
               translation := {| x := -10; y := -20; z := -30 |} |} : @Transform types)
           initial_world rotated_doc_transform_form
           eq_refl eq_refl eq_refl eq_refl eq_refl).
Defined.

Lemma realityModelFromOPC_anchor_witness :
  realityModelFromOPC (P := orbitgt (Some "EPSG:32633")) "https://blob/cloud.opc"
    initial_world
  = (Returned
       (Some {| location :=
                  Some (loc_EcefLocation
                          ({| x := 1; y := 2; z := 0 |} : @EcefLocation types));
                extents := Some (Some ({| x := -1; y := -2; z := 0 |},
                                       {| x := 1; y := 2; z := 6 |})
                                 : @Range3d types) |}),
     opened_through initial_world
       {| pcf_fileName := "https://blob/cloud.opc"; pcf_fileSize := 4096;
          pcf_pageSize := 131072; pcf_maxPageCount := 128 |}).
Proof.
  exact (proj2 (realityModelFromOPC_anchor (P := orbitgt (Some "EPSG:32633"))
                  "https://blob/cloud.opc" 4096 (Some "EPSG:32633") initial_world
                  (or_intror eq_refl) eq_refl eq_refl)
           "EPSG:32633" {| x := 1; y := 2; z := 3 |}
           {| longitude := 1; latitude := 2; height := 3 |}
           ({| cols := identity_columns;
               translation := {| x := -1; y := -2; z := 0 |} |} : @Transform types)
           eq_refl ltac:(discriminate) eq_refl eq_refl eq_refl eq_refl eq_refl).
Defined.

(** While the decorator is active, a redraw of a spatial view draws the two
    outlines of the stored extents. *)
Example redraw_while_active :
  redraw sample_context (getOrCreate sample_extents initial).2
  = [ {| graphicType := WorldDecoration; lineColor := 16777215%Z : @ColorDef render;
         fillColor := 0%Z : @ColorDef render; lineWidth := 3; linePixels := Solid;
         rangeBox := sample_extents |};
      {| graphicType := WorldOverlay; lineColor := 1694498815%Z : @ColorDef render;
         fillColor := 0%Z : @ColorDef render; lineWidth := 1; linePixels := Code2;
         rangeBox := sample_extents |} ].
Proof. vm_compute. reflexivity. Qed.

(** Creating again after a disposal registers a new instance. *)
Example recreate_after_dispose :
  isActive (getOrCreate sample_extents (dispose (getOrCreate sample_extents initial).2)).2
  = true
  /\ length (decorators
               (getOrCreate sample_extents
                  (dispose (getOrCreate sample_extents initial).2)).2) = 1%nat.
Proof. vm_compute. by split. Qed.

Lemma dispose_then_redraw_nothing_witness :
  isActive (dispose (getOrCreate sample_extents initial).2) = false
  /\ decorators (dispose (getOrCreate sample_extents initial).2) = []
  /\ redraw sample_context (dispose (getOrCreate sample_extents initial).2) = [].
Proof.
  exact (dispose_then_redraw_nothing (getOrCreate sample_extents initial).2
           sample_context
           (reachable_getOrCreate initial sample_extents reachable_initial)).
Defined.

End Runs.

(** ** More on the metadata fetch *)

Section FloatFacts.

Lemma SFcompare_Eq_finite s m e s' m' e' :
  SFcompare (S754_finite s m e) (S754_finite s' m' e') = Some Eq ->
  s = s' /\ m = m' /\ e = e'.
Proof.
  cbn [SFcompare]. destruct s, s'; try discriminate;
    destruct (Z.compare_spec e e') as [-> | |]; try discriminate;
    rewrite ?Pos.compare_cont_spec; cbn [Pos.switch_Eq CompOpp];
    destruct (Pos.compare_spec m m') as [-> | |]; cbn; try discriminate; auto.
Qed.

(** A number equal to [a] compares with every number as [a] does. *)
Lemma eqb_true_same (n a : float) :
  PrimFloat.eqb n a = true -> forall b, PrimFloat.eqb n b = PrimFloat.eqb a b.
Proof.
  rewrite eqb_spec. intros H b. rewrite !eqb_spec. unfold SFeqb in *.
  destruct (SFcompare (Prim2SF n) (Prim2SF a)) as [[]|] eqn:E; try discriminate.
  clear H.
  destruct (Prim2SF n) as [s|s| |s m e], (Prim2SF a) as [s'|s'| |s' m' e'];
    try (cbn in E; discriminate); try (cbn in E; destruct s, s'; discriminate).
  - destruct (Prim2SF b) as [sb|sb| |sb mb eb]; cbn; try reflexivity;
      destruct s, s', sb; reflexivity.
  - destruct (Prim2SF b) as [sb|sb| |sb mb eb]; cbn in *; try reflexivity;
      destruct s, s', sb; try reflexivity; discriminate.
  - apply SFcompare_Eq_finite in E as (-> & -> & ->). reflexivity.
Qed.

(** The three codes tested by the handler exclude one another. *)
Lemma coded_tests (n : float) :
  (PrimFloat.eqb n 401 = true ->
   PrimFloat.eqb n 404 = false /\ PrimFloat.eqb n 422 = false)
  /\ (PrimFloat.eqb n 404 = true -> PrimFloat.eqb n 422 = false).
Proof.
  split; [intros H; split | intros H]; by rewrite (eqb_true_same _ _ H).
Qed.

End FloatFacts.

Section MoreFetchFacts.
Context {T : GeometryTypes} {G : GeometryLibrary} {P : OrbitGT} {B : Browser}
        {S : StringPrototype}.

(** The three tests of the handler, run one after the other, show the
    notification of [coded_notification] and no other. *)
Lemma coded_handler n w :
  ((when strict_eq_num (VNum n) 401 then toaster_negative "Unauthorized" "persisting") ;;;
   (when strict_eq_num (VNum n) 404 then toaster_negative "NotFound" "persisting") ;;;
   (when strict_eq_num (VNum n) 422 then toaster_negative "SomethingWentWrong" "persisting") ;;;
   ret (None : option ITwinRealityData)) w
  = (Returned None,
     match coded_notification n with
     | Some content => notify w (negative content "persisting")
     | None => w
     end).
Proof.
  unfold coded_notification. cbn [strict_eq_num].
  destruct (coded_tests n) as [H401 H404].
  destruct (PrimFloat.eqb n 401) eqn:E1.
  - destruct (H401 eq_refl) as [-> ->]. reflexivity.
  - destruct (PrimFloat.eqb n 404) eqn:E2.
    + rewrite (H404 eq_refl). reflexivity.
    + destruct (PrimFloat.eqb n 422); reflexivity.
Qed.

(** X1: a fault that carries one of the error codes 401, 404 and 422 is
    turned into [undefined] and reported by exactly one notification, that of
    its code: Unauthorized for 401, NotFound for 404 and SomethingWentWrong
    for 422. *)
Theorem fetchRealityData_coded this token fields n content w :
  getRealityData (_rdaClient this) token (_iTwinId this) (_realityDataId this)
    = Thrown (VObj fields) ->
  own_property fields "errorNumber" = Some (VNum n) ->
  coded_notification n = Some content ->
  fetchRealityData this token w
  = (Returned None, notify w (negative content "persisting")).
Proof.
  intros Hget Hown Hcode.
  rewrite (fetchRealityData_caught _ _ _ _ _ Hget Hown), coded_handler.
  by rewrite Hcode.
Qed.

Lemma fetchRealityData_shape this token w :
  (exists realityData,
     getRealityData (_rdaClient this) token (_iTwinId this) (_realityDataId this)
       = Returned realityData
     /\ fetchRealityData this token w = (Returned (Some realityData), w))
  \/ (exists error w',
        getRealityData (_rdaClient this) token (_iTwinId this) (_realityDataId this)
          = Thrown error
        /\ fetchRealityData this token w = (Returned None, w')
        /\ at_most_one_toast w w').
Proof.
  destruct (getRealityData (_rdaClient this) token (_iTwinId this) (_realityDataId this))
    as [realityData | error] eqn:Hget.
  { left. exists realityData. split; [reflexivity |].
    unfold fetchRealityData, try_catch, bind, await. by rewrite Hget. }
  right. exists error.
  destruct (hasOwn error "errorNumber") eqn:Hown.
  - destruct error as [| | | | | |fields]; try discriminate.
    cbn in Hown. apply bool_decide_eq_true_1 in Hown as [code Hcode].
    rewrite (fetchRealityData_caught _ _ _ _ _ Hget Hcode).
    destruct code as [| | |n| | |];
      try (eexists; split; [reflexivity |]; split; [reflexivity | by left]).
    rewrite coded_handler. eexists. split; [reflexivity |]. split; [reflexivity |].
    destruct (coded_notification n); [right; eauto | by left].
  - rewrite (fetchRealityData_unexpected _ _ _ _ Hget Hown).
    eexists. split; [reflexivity |]. split; [reflexivity |]. right. eauto.
Qed.

(** X2: [fetchRealityData] never throws.  When the client answers, the
    record is returned and nothing is shown; when the client fails, whatever
    it throws, the result is [undefined] and at most one notification is
    shown. *)
Theorem fetchRealityData_never_throws this token w :
  (exists realityData,
     getRealityData (_rdaClient this) token (_iTwinId this) (_realityDataId this)
       = Returned realityData
     /\ fetchRealityData this token w = (Returned (Some realityData), w))
  \/ (exists error w',
        getRealityData (_rdaClient this) token (_iTwinId this) (_realityDataId this)
          = Thrown error
        /\ fetchRealityData this token w = (Returned None, w')
        /\ at_most_one_toast w w').
Proof. apply fetchRealityData_shape. Qed.

End MoreFetchFacts.

(** ** More on the geo-location derivation *)

Section OutcomeFacts.
Context {T : GeometryTypes} {G : GeometryLibrary} {P : OrbitGT} {B : Browser}
        {S : StringPrototype}.

Lemma parseRootDocument_shape rootDoc w :
  derivation_outcome w (parseRootDocument rootDoc w).
Proof.
  unfold parseRootDocument, parseRegion, parseTransform, bind, await, deref, ret,
    throw, toaster_negative, derivation_outcome.
  repeat (case_match; simplify_eq/=); eauto 10.
Qed.

Lemma realityModelFromOPC_shape blobFileURL w :
  derivation_outcome w (realityModelFromOPC blobFileURL w).
Proof.
  unfold realityModelFromOPC, locateOPC, ensure_Downloader, ensure_CRSManager,
    OPCReader_open, bind, await, deref, ret, throw, derivation_outcome.
  repeat (case_match; simplify_eq/=); eauto 10.
Qed.

(** X3: however [parseRootDocument] ends, it shows at most one notification
    and touches nothing else: a [GeoLocation] it returns has both a location
    and extents and comes without a notification, a notification comes with
    [undefined], and a thrown value comes without a notification. *)
Theorem parseRootDocument_outcome rootDoc w :
  derivation_outcome w (parseRootDocument rootDoc w)
  /\ opened (parseRootDocument rootDoc w).2 = opened w.
Proof.
  unfold parseRootDocument, parseRegion, parseTransform, bind, await, deref, ret,
    throw, toaster_negative, derivation_outcome.
  repeat (case_match; simplify_eq/=); eauto 10.
Qed.

(** X4: [realityModelFromOPC] never shows a notification and never returns
    [undefined]: it returns a [GeoLocation] with both fields or throws.  It
    opens at most one file, and only through a cache of 128 pages of
    131072 bytes on the URL it was given. *)
Theorem realityModelFromOPC_outcome blobFileURL w :
  let res := realityModelFromOPC blobFileURL w in
  derivation_outcome w res
  /\ res.1 <> Returned None
  /\ (opened res.2 = opened w
      \/ exists size,
          opened res.2
          = (opened w ++ [ {| pcf_fileName := blobFileURL; pcf_fileSize := size;
                              pcf_pageSize := 131072; pcf_maxPageCount := 128 |} ])%list).
Proof.
  unfold realityModelFromOPC, locateOPC, ensure_Downloader, ensure_CRSManager,
    OPCReader_open, bind, await, deref, ret, throw, derivation_outcome.
  change (128 * 1024)%Z with 131072%Z.
  repeat (case_match; simplify_eq/=); repeat split; eauto 10; try done.
Qed.

Lemma type_is_declared type t tag :
  type = Some t -> t <> "" ->
  type_is type tag = String.eqb (toUpperCase t) tag.
Proof.
  intros -> Hne. unfold type_is. apply String.eqb_neq in Hne. by rewrite Hne.
Qed.

(** The four tile-set tests of lines 146-149 on a declared tile-set type. *)
Lemma tile_type_tests type tag :
  tag ∈ tile_types -> declared_as type tag ->
  type_is type "OPC" = false
  /\ type_is type "CESIUM3DTILES" || type_is type "PNTS"
     || type_is type "REALITYMESH3DTILES" || type_is type "TERRAIN3DTILES" = true.
Proof.
  intros Htag (t & Htype & Hne & Hupper).
  rewrite !(type_is_declared _ _ _ Htype Hne), Hupper.
  unfold tile_types in Htag.
  repeat (apply elem_of_cons in Htag as [-> | Htag];
          [rewrite toUpperCase_ascii by reflexivity; by split |]).
  by apply elem_of_nil in Htag.
Qed.

(** X5: a record declared as one of the four tile-set types, in any case of
    letters, has its root document downloaded, and when the response is ok
    the result is that of [parseRootDocument] on the parsed body. *)
Theorem getRealityDataGeoLocation_tiles token rd tag url response rootDoc w :
  tag ∈ tile_types ->
  declared_as (rd_type rd) tag ->
  getBlobUrl rd token (rootDocName rd) = Returned url ->
  fetch url = Returned response ->
  ok response = true ->
  json response = Returned rootDoc ->
  getRealityDataGeoLocation token rd w = parseRootDocument rootDoc w.
Proof.
  intros Htag Htype Hurl Hfetch Hok Hjson.
  destruct (tile_type_tests _ _ Htag Htype) as [Hopc Htiles].
  unfold getRealityDataGeoLocation.
  rewrite (bind_await _ _ _ _ Hurl), Hopc, Htiles, (bind_await _ _ _ _ Hfetch), Hok.
  cbn [negb]. by rewrite (bind_await _ _ _ _ Hjson).
Qed.

(** X6: when the download of the root document of a tile set is answered
    with a response that is not ok, the body is not read: one
    RootDocumentError notification is shown and the result is [undefined]. *)
Theorem getRealityDataGeoLocation_not_ok token rd tag url response w :
  tag ∈ tile_types ->
  declared_as (rd_type rd) tag ->
  getBlobUrl rd token (rootDocName rd) = Returned url ->
  fetch url = Returned response ->
  ok response = false ->
  getRealityDataGeoLocation token rd w
  = (Returned None, notify w (negative "RootDocumentError" "persisting")).
Proof.
  intros Htag Htype Hurl Hfetch Hok.
  destruct (tile_type_tests _ _ Htag Htype) as [Hopc Htiles].
  unfold getRealityDataGeoLocation.
  rewrite (bind_await _ _ _ _ Hurl), Hopc, Htiles, (bind_await _ _ _ _ Hfetch), Hok.
  reflexivity.
Qed.

(** X7: a record declared as OPC, in any case of letters, is read as a point
    cloud at the URL of its root document; nothing is downloaded with
    [fetch]. *)
Theorem getRealityDataGeoLocation_opc token rd url w :
  declared_as (rd_type rd) "OPC" ->
  getBlobUrl rd token (rootDocName rd) = Returned url ->
  getRealityDataGeoLocation token rd w = realityModelFromOPC url w.
Proof.
  intros (t & Htype & Hne & Hupper) Hurl. unfold getRealityDataGeoLocation.
  rewrite (bind_await _ _ _ _ Hurl), (type_is_declared _ _ _ Htype Hne), Hupper.
  rewrite (toUpperCase_ascii "OPC" eq_refl). reflexivity.
Qed.

Lemma derivation_outcome_toasts w w1 res :
  toasts w1 = toasts w -> derivation_outcome w1 res -> derivation_outcome w res.
Proof.
  intros Hw. unfold derivation_outcome.
  destruct res as [[[g|] | e] w']; by rewrite Hw.
Qed.

Lemma getRealityDataGeoLocation_shape token rd w :
  derivation_outcome w (getRealityDataGeoLocation token rd w).
Proof.
  unfold getRealityDataGeoLocation, bind at 1, await at 1.
  destruct (getBlobUrl rd token (rootDocName rd)) as [url | e]; [|reflexivity].
  destruct (type_is (rd_type rd) "OPC").
  { apply realityModelFromOPC_shape. }
  destruct (_ || _).
  - unfold bind at 1, await at 1.
    destruct (fetch url) as [response | e]; [|reflexivity].
    destruct (ok response); cbn [negb].
    + unfold bind at 1, await at 1.
      destruct (json response) as [rootDoc | e]; [|reflexivity].
      apply parseRootDocument_shape.
    + right. eexists. reflexivity.
  - right. eexists. reflexivity.
Qed.

(** X8: however [getRealityDataGeoLocation] ends, it shows at most one
    notification: a [GeoLocation] it returns has both a location and extents
    and comes without a notification, a notification comes with [undefined],
    and a thrown value comes without a notification. *)
Theorem getRealityDataGeoLocation_outcome token rd w :
  derivation_outcome w (getRealityDataGeoLocation token rd w).
Proof. apply getRealityDataGeoLocation_shape. Qed.

(** X9: [getRealityDataProps] shows at most one notification per call.  When
    it returns, either the result is geo-located, with a visualization
    descriptor, a location and extents, and nothing was shown, or the result
    carries no geo-location. *)
Theorem getRealityDataProps_outcome this token w :
  match getRealityDataProps this token w with
  | (Returned rdProps, w') =>
      (renderable rdProps = true /\ toasts w' = toasts w)
      \/ (geoLocation rdProps = None
          /\ (toasts w' = toasts w \/ exists t, toasts w' = (toasts w ++ [t])%list))
  | (Thrown _, w') => toasts w' = toasts w
  end.
Proof.
  unfold getRealityDataProps. unfold bind at 1.
  destruct (fetchRealityData_shape this token w)
    as [(rd & _ & ->) | (error & w' & _ & -> & Hw')].
  - unfold bind at 1, await at 1.
    destruct (getBlobUrl rd token "") as [tileset | e]; [|reflexivity].
    unfold bind.
    pose proof (getRealityDataGeoLocation_shape token rd w) as Hgeo.
    destruct (getRealityDataGeoLocation token rd w) as [[[g|] | e] w'];
      cbn in Hgeo |- *; [| by right | done].
    destruct Hgeo as (Hw' & [l Hl] & [x Hx]). left. split; [|done].
    unfold renderable. cbn. by rewrite Hl, Hx.
  - cbn. right. split; [reflexivity |].
    destruct Hw' as [-> | [t ->]]; [by left | right; by exists t].
Qed.

End OutcomeFacts.

(** ** More on the root document *)

Section MoreParseFacts.
Context {T : GeometryTypes} {G : GeometryLibrary} {P : OrbitGT} {B : Browser}
        {S : StringPrototype}.

(** X10: a document that is not an object (a number, a string, a boolean,
    an array), or an object without a [root] property, is reported once as
    missing its root and gives [undefined]. *)
Theorem parseRootDocument_rootless rootDoc w :
  rootDoc <> VUndefined ->
  rootDoc <> VNull ->
  (forall fields, rootDoc = VObj fields ->
     own_property fields "root" = None \/ own_property fields "root" = Some VUndefined) ->
  parseRootDocument rootDoc w
  = (Returned None, notify w (negative "RootDocMissingRootProperty" "persisting")).
Proof.
  intros Hundef Hnull Hobj. apply parseRootDocument_no_root.
  destruct rootDoc as [| | | | | |fields]; try done.
  cbn. by destruct (Hobj fields eq_refl) as [-> | ->].
Qed.

(** X11: a bounding volume whose [region] is set to something that is not
    an array (a number other than zero, a non-empty string, an object) is
    reported once as lacking a valid region and gives [undefined]; the
    transform and the rest of the volume are not looked at. *)
Theorem parseRootDocument_region_not_array rootDoc root bv region w :
  root_bounding_volume rootDoc root bv ->
  get bv "region" = Returned region ->
  truthy region = true ->
  asArray region = None ->
  parseRootDocument rootDoc w
  = (Returned None, notify w (negative "RootDocMissingRegionProperty" "persisting")).
Proof.
  intros (Hroot & Hdef & Hbv) Hregion Htruthy Harray. unfold parseRootDocument.
  rewrite (bind_await _ _ _ _ Hroot), Hdef, (bind_await _ _ _ _ Hbv),
    (bind_await _ _ _ _ Hregion), Htruthy.
  unfold parseRegion. by rewrite Harray.
Qed.

(** The transform branch when the anchor is not the Earth's centre and the
    transform gives no usable orientation. *)
Lemma parseTransform_from_center root bv transform rr cartoCenter ecefToWorld w :
  get root "transform" = Returned transform ->
  rangeFromBoundingVolume bv = Some rr ->
  let t := worldToEcefTransform_of transform in
  isIdentity (matrix t)
  && (PrimFloat.ltb (magnitude (center (range rr))) 1.0e5
      || match Cartographic_fromEcef (multiplyPoint3d t (center (range rr))) with
         | Some c => PrimFloat.ltb (height c) (-5000)
         | None => false
         end) = false ->
  usableOrientation t (YawPitchRollAngles_tryFromTransform t) = None ->
  Cartographic_fromEcef (multiplyPoint3d t (center (range rr))) = Some cartoCenter ->
  let frame :=
    EcefLocation_createFromCartographicOrigin cartoCenter
      (if negb (isIdentity (matrix t)) then Some (center (range rr)) else None) in
  inverse (getTransform frame) = Some ecefToWorld ->
  parseTransform Range3d_new root bv w
  = (Returned
       (Some {| location := Some (loc_EcefLocation frame);
                extents :=
                  Some (worldRange_of
                          (multiplyRange ecefToWorld (multiplyRange t (range rr)))) |}),
     w).
Proof.
  intros Htransform Hrange t Hnot Huse Hcarto frame Hinv. unfold parseTransform.
  rewrite (bind_await _ _ _ _ Htransform), (bind_deref _ _ _ _ Hrange).
  fold (worldToEcefTransform_of transform). fold t. cbv zeta.
  rewrite Hnot, Huse, Hcarto. unfold bind at 1 2. cbn [deref ret].
  fold frame. by rewrite (bind_deref _ _ _ _ Hinv).
Qed.

(** X12: the georeferenced case.  A transform-form document whose transform
    has the identity matrix (none declared, say) and whose bounding-volume
    centre is at least 100 km from the Earth's centre and not more than 5 km
    below ground is anchored at the frame of the cartographic centre of its
    bounding range, without a world-space offset; the extents are the
    bounding range expressed in that frame. *)
Theorem parseRootDocument_georeferenced
    rootDoc bv transform rr cartoCenter ecefToWorld w :
  transform_form rootDoc bv transform ->
  rangeFromBoundingVolume bv = Some rr ->
  let t := worldToEcefTransform_of transform in
  isIdentity (matrix t) = true ->
  PrimFloat.ltb (magnitude (center (range rr))) 1.0e5 = false ->
  Cartographic_fromEcef (multiplyPoint3d t (center (range rr))) = Some cartoCenter ->
  PrimFloat.ltb (height cartoCenter) (-5000) = false ->
  let frame := EcefLocation_createFromCartographicOrigin cartoCenter None in
  inverse (getTransform frame) = Some ecefToWorld ->
  parseRootDocument rootDoc w
  = (Returned
       (Some {| location := Some (loc_EcefLocation frame);
                extents :=
                  Some (worldRange_of
                          (multiplyRange ecefToWorld (multiplyRange t (range rr)))) |}),
     w).
Proof.
  intros Hform Hrange t Hid Hfar Hcarto Hground frame Hinv.
  rewrite (parseRootDocument_transform_form _ _ _ _ Hform).
  destruct Hform as (root & region & (Hroot & _ & _) & _ & _ & Htransform).
  rewrite Hroot.
  pose proof (parseTransform_from_center root bv transform rr cartoCenter ecefToWorld w
                Htransform Hrange) as Hbranch.
  cbv zeta in Hbranch. fold t in Hbranch. unfold usableOrientation in Hbranch.
  rewrite Hid, Hfar, Hcarto, Hground in Hbranch. by apply Hbranch.
Qed.

(** X13: a transform-form document whose transform has a matrix other than
    the identity, from which no yaw, pitch and roll angles are extracted, is
    anchored at the frame of the cartographic centre of its bounding range,
    with the local centre of the bounding volume as world-space offset. *)
Theorem parseRootDocument_unoriented_transform
    rootDoc bv transform rr cartoCenter ecefToWorld w :
  transform_form rootDoc bv transform ->
  rangeFromBoundingVolume bv = Some rr ->
  let t := worldToEcefTransform_of transform in
  isIdentity (matrix t) = false ->
  (YawPitchRollAngles_tryFromTransform t = None
   \/ exists lo, YawPitchRollAngles_tryFromTransform t = Some lo /\ ta_angles lo = None) ->
  Cartographic_fromEcef (multiplyPoint3d t (center (range rr))) = Some cartoCenter ->
  let frame :=
    EcefLocation_createFromCartographicOrigin cartoCenter (Some (center (range rr))) in
  inverse (getTransform frame) = Some ecefToWorld ->
  parseRootDocument rootDoc w
  = (Returned
       (Some {| location := Some (loc_EcefLocation frame);
                extents :=
                  Some (worldRange_of
                          (multiplyRange ecefToWorld (multiplyRange t (range rr)))) |}),
     w).
Proof.
  intros Hform Hrange t Hid Hangles Hcarto frame Hinv.
  rewrite (parseRootDocument_transform_form _ _ _ _ Hform).
  destruct Hform as (root & region & (Hroot & _ & _) & _ & _ & Htransform).
  rewrite Hroot.
  pose proof (parseTransform_from_center root bv transform rr cartoCenter ecefToWorld w
                Htransform Hrange) as Hbranch.
  cbv zeta in Hbranch. fold t in Hbranch. unfold usableOrientation in Hbranch.
  rewrite Hid in Hbranch. cbn [negb andb] in Hbranch.
  apply Hbranch; try done.
  by destruct Hangles as [-> | (lo & -> & ->)].
Qed.

End MoreParseFacts.

(** ** More on [getRealityDataProps] *)

Section PropsFacts.
Context {T : GeometryTypes} {G : GeometryLibrary} {P : OrbitGT} {B : Browser}
        {S : StringPrototype}.

(** X14: a fault of the metadata fetch that carries no [errorNumber] (a
    string, [null], an object without that property) is reported once as
    unexpected, and [getRealityDataProps] returns the empty result. *)
Theorem getRealityDataProps_uncoded this token error w :
  getRealityData (_rdaClient this) token (_iTwinId this) (_realityDataId this)
    = Thrown error ->
  hasOwn error "errorNumber" = false ->
  getRealityDataProps this token w
  = (Returned {| realityData := None; geoLocation := None |},
     notify w (negative "SomethingWentWrongUnexpected" "persisting")).
Proof.
  intros Hget Hown. unfold getRealityDataProps.
  by rewrite (bind_returned _ _ _ _ _ (fetchRealityData_unexpected _ _ _ _ Hget Hown)).
Qed.

(** X15: whenever [getRealityDataProps] returns after the record was
    fetched, the result carries the visualization descriptor of the record,
    geo-located or not: its id, as name the display name or else the id, and
    the format OPC exactly when the declared type is "OPC" in capitals. *)
Theorem getRealityDataProps_descriptor this token rd rdProps w w' :
  getRealityData (_rdaClient this) token (_iTwinId this) (_realityDataId this)
    = Returned rd ->
  getRealityDataProps this token w = (Returned rdProps, w') ->
  exists vis,
    realityData rdProps = Some vis
    /\ getBlobUrl rd token "" = Returned (tilesetUrl vis)
    /\ realityDataId vis = Some (rd_id rd)
    /\ key_id (rdSourceKey vis) = rd_id rd
    /\ name vis = Some (or_else (rd_displayName rd) (rd_id rd))
    /\ description vis = rd_description rd
    /\ (format (rdSourceKey vis) = OPC <-> rd_type rd = Some "OPC").
Proof.
  intros Hget. unfold getRealityDataProps, fetchRealityData, try_catch.
  unfold bind at 1 2, await at 1. rewrite Hget. cbn [ret].
  unfold bind at 1, await at 1.
  destruct (getBlobUrl rd token "") as [tileset | e]; [|discriminate].
  unfold bind, ret.
  destruct (getRealityDataGeoLocation token rd w) as [[g | e] w1]; [|discriminate].
  intros [= <- <-]. eexists. repeat split; cbn.
  - destruct (rd_type rd) as [t|]; [|discriminate].
    destruct (String.eqb_spec t "OPC") as [-> | Hne]; [done | discriminate].
  - intros ->. reflexivity.
Qed.

End PropsFacts.

(** ** More on the range decorator *)

Section MoreDecoratorFacts.
Context {T : GeometryTypes} {R : RenderLibrary}.
Import RangeDecorator.

(** X16: in every state of the application at most one decorator is
    registered with the host, and one is registered exactly when the class
    is active; it is the singleton. *)
Theorem reachable_at_most_one_decorator (s : App) :
  reachable s ->
  decorators s = option_list (_decorator s)
  /\ (length (decorators s) <= 1)%nat
  /\ (isActive s = true <-> decorators s <> []).
Proof.
  intros Hs. destruct (reachable_singleton_registered s Hs) as [Hreg _].
  rewrite Hreg. unfold isActive. destruct (_decorator s); cbn; repeat split; auto; done.
Qed.

Lemma redraw_singleton (s : App) context :
  singleton_registered s ->
  redraw context s = from_option (outlines context) [] (current_extents s).
Proof.
  intros [Hreg Hown]. unfold redraw, current_extents. rewrite Hreg.
  destruct (_decorator s) as [d|]; [|reflexivity].
  destruct (Hown d eq_refl) as (o & Ho & _). cbn. rewrite Ho. cbn.
  by rewrite app_nil_r.
Qed.


Lemma getOrCreate_inactive r (s : App) :
  singleton_registered s -> isActive s = false ->
  current_extents (getOrCreate r s).2 = Some r /\ isActive (getOrCreate r s).2 = true.
Proof.
  intros _ Hinactive. unfold isActive in Hinactive. unfold getOrCreate.
  destruct (_decorator s) eqn:Hd; [discriminate |].
  unfold constructor, updateDecorationListener, current_extents, isActive.
  cbn [fst snd heap]. rewrite lookup_insert_eq. cbn.
  by rewrite lookup_alter_eq, lookup_insert_eq.
Qed.

(** X18: creating the decorator while the class is not active stores the
    given extents and activates the class; the next redraw of a spatial view
    outlines these extents. *)
Theorem getOrCreate_stores_extents r (s : App) context :
  reachable s ->
  isActive s = false ->
  current_extents (getOrCreate r s).2 = Some r
  /\ isActive (getOrCreate r s).2 = true
  /\ redraw context (getOrCreate r s).2 = outlines context r.
Proof.
  intros Hs Hinactive. apply reachable_singleton_registered in Hs.
  destruct (getOrCreate_inactive r s Hs Hinactive) as [Hextents Hactive].
  repeat split; [done | done |].
  rewrite redraw_singleton by by apply singleton_registered_getOrCreate.
  by rewrite Hextents.
Qed.


(** X20: [dispose] on a class that is not active changes nothing, so
    disposing twice is the same as disposing once. *)
Theorem dispose_idempotent (s : App) :
  reachable s ->
  (isActive s = false -> dispose s = s)
  /\ dispose (dispose s) = dispose s.
Proof.
  intros Hs.
  assert (Hnoop : forall s' : App, _decorator s' = None -> dispose s' = s').
  { intros [h dec ds] Hdec. cbn in Hdec. subst dec. reflexivity. }
  split.
  - unfold isActive. intros Hinactive. apply Hnoop. by destruct (_decorator s).
  - apply Hnoop. apply reachable_singleton_registered in Hs.
    by destruct (dispose_spec s Hs).
Qed.

(** X21: [dispose] unregisters the singleton only.  When the constructor is
    called directly a second time, the first instance is no longer the
    singleton: after [dispose] the class is not active, but the first
    instance stays registered with the host and is still drawn. *)
Theorem constructor_twice_leaves_first_registered r1 r2 (s : App) context :
  reachable s ->
  isActive s = false ->
  let first := constructor r1 s in
  let second := constructor r2 first.2 in
  first.1 <> second.1
  /\ isActive (dispose second.2) = false
  /\ decorators (dispose second.2) = [first.1]
  /\ redraw context (dispose second.2) = outlines context r1.
Proof.
  intros Hs Hinactive. apply reachable_singleton_registered in Hs.
  destruct Hs as [Hreg _]. unfold isActive in Hinactive.
  destruct (_decorator s) eqn:Hd; [discriminate |]. cbn in Hreg.
  set (d1 := fresh (dom (heap s))).
  set (h1 := <[d1 := {| _removeDecorationListener := Some d1; _extents := r1 |}]> (heap s)).
  assert (Hfirst : constructor r1 s
                   = (d1, {| heap := h1; _decorator := Some d1; decorators := [d1] |})).
  { unfold constructor, updateDecorationListener. cbn [heap].
    rewrite lookup_insert_eq. cbn. rewrite Hreg. unfold set_listener. cbn.
    fold d1. f_equal. f_equal. unfold h1. apply map_eq. intros i.
    destruct (decide (i = d1)) as [-> | Hne].
    - by rewrite lookup_alter_eq, !lookup_insert_eq.
    - by rewrite lookup_alter_ne, !lookup_insert_ne. }
  cbv zeta. rewrite Hfirst. cbn [fst snd].
  set (d2 := fresh (dom h1)).
  assert (Hne : d1 <> d2).
  { intros Heq. apply (is_fresh (dom h1)). fold d2. rewrite <- Heq.
    unfold h1. rewrite dom_insert. set_solver. }
  assert (Hh1 : h1 !! d2 = None).
  { apply not_elem_of_dom. apply is_fresh. }
  unfold constructor, updateDecorationListener. cbn [heap fst snd]. fold d2.
  rewrite lookup_insert_eq. cbn. unfold set_listener, dispose, stop. cbn.
  unfold updateDecorationListener. cbn.
  rewrite lookup_alter_eq, lookup_insert_eq. cbn.
  assert (Hneb : Nat.eqb d1 d2 = false) by by apply Nat.eqb_neq.
  rewrite Hneb. cbn. rewrite Nat.eqb_refl. cbn. rewrite Hneb.
  repeat split; [done |].
  unfold redraw. cbn.
  rewrite lookup_alter_ne, lookup_alter_ne, lookup_insert_ne by done.
  unfold h1. rewrite lookup_insert_eq. cbn. by rewrite app_nil_r.
Qed.

End MoreDecoratorFacts.

(** ** The application and the debug widget *)

Section ApplicationFacts.
Context {T : GeometryTypes} {G : GeometryLibrary} {P : OrbitGT} {B : Browser}
        {S : StringPrototype}.

(** X22: the blank connection the application opens never falls back on
    the defaults of [getBlankConnection] for its place: its location and
    extents are those of the geo-location of the reality data, and it
    carries the iTwin id of the manager.  Without a location, extents or a
    visualization descriptor no connection is opened. *)
Theorem initialize_connection_geolocated rdManager rdProps :
  match initialize_connection rdManager rdProps with
  | Some connection =>
      exists g,
        geoLocation rdProps = Some g
        /\ location g = Some (bc_location connection)
        /\ extents g = Some (bc_extents connection)
        /\ bc_iTwinId connection = _iTwinId rdManager
        /\ is_Some (realityData rdProps)
  | None =>
      realityData rdProps = None
      \/ geoLocation rdProps ≫= location = None
      \/ geoLocation rdProps ≫= extents = None
  end.
Proof.
  unfold initialize_connection, renderable, getBlankConnection.
  destruct (geoLocation rdProps) as [g|]; cbn; [|auto].
  destruct (location g) as [l|] eqn:Hl, (extents g) as [e|] eqn:He,
    (realityData rdProps) as [vis|]; cbn; auto.
  exists g. by rewrite Hl, He.
Qed.

End ApplicationFacts.

Section WidgetFacts.
Context {T : GeometryTypes} {R : RenderLibrary}.
Import RangeDecorator DebugWidget.

Lemma onClick_in_step connection (st : WidgetState) :
  reachable (decoration st) ->
  extentsVisible st = isActive (decoration st) ->
  reachable (decoration (onClick connection st))
  /\ extentsVisible (onClick connection st) = isActive (decoration (onClick connection st)).
Proof.
  intros Hs Hstep. destruct connection as [c|]; [|by split]. unfold onClick.
  destruct (extentsVisible st); cbn [negb extentsVisible decoration].
  - split; [by constructor |].
    apply reachable_singleton_registered in Hs.
    destruct (dispose_spec _ Hs) as [Hdec _]. unfold isActive. by rewrite Hdec.
  - split; [by constructor |].
    symmetry. unfold isActive, getOrCreate.
    destruct (_decorator (decoration st)) eqn:Hd.
    + unfold isActive in Hstep. by rewrite Hd in Hstep.
    + by rewrite constructor_decorator.
Qed.

(** X23: after any sequence of clicks on the Extents Box button, with or
    without an active connection at each click, the [extentsVisible] flag of
    the widget tells whether the decorator is active, and the outlines drawn
    are those of at most one decorator. *)
Theorem clicks_in_step connections :
  let st := clicks connections initial_widget in
  extentsVisible st = isActive (decoration st)
  /\ reachable (decoration st)
  /\ (length (decorators (decoration st)) <= 1)%nat.
Proof.
  cbv zeta.
  assert (Hgen : forall st : WidgetState,
            reachable (decoration st) ->
            extentsVisible st = isActive (decoration st) ->
            reachable (decoration (clicks connections st))
            /\ extentsVisible (clicks connections st)
               = isActive (decoration (clicks connections st))).
  { induction connections as [|c cs IH]; intros st Hs Hstep; [by split |].
    cbn. destruct (onClick_in_step c st Hs Hstep) as [Hs' Hstep']. by apply IH. }
  destruct (Hgen initial_widget) as [Hs Hstep]; [constructor | reflexivity |].
  repeat split; [done | done |].
  destruct (reachable_singleton_registered _ Hs) as [-> _].
  destruct (_decorator _); cbn; lia.
Qed.

(** X24: a click without an active connection does nothing.  With one,
    when the outlines are not shown, a click shows the outlines of the
    project extents of the connection, and the next click removes them
    again and leaves the flag off. *)
Theorem click_toggles (st : WidgetState) connection connection' context :
  reachable (decoration st) ->
  extentsVisible st = isActive (decoration st) ->
  extentsVisible st = false ->
  onClick None st = st
  /\ redraw context (decoration (onClick (Some connection) st))
     = outlines context (projectExtents connection)
  /\ redraw context
       (decoration (onClick (Some connection') (onClick (Some connection) st))) = []
  /\ extentsVisible (onClick (Some connection') (onClick (Some connection) st)) = false.
Proof.
  intros Hs Hstep Hoff. apply reachable_singleton_registered in Hs.
  split; [reflexivity |].
  unfold onClick. rewrite Hoff. cbn [negb extentsVisible decoration].
  rewrite Hoff in Hstep. symmetry in Hstep.
  assert (Hs' : singleton_registered
                  (getOrCreate (projectExtents connection) (decoration st)).2)
    by by apply singleton_registered_getOrCreate.
  split; [| split; [| reflexivity]].
  - rewrite redraw_singleton by done.
    by destruct (getOrCreate_inactive (projectExtents connection) _ Hs Hstep) as [-> _].
  - destruct (dispose_spec _ Hs') as [_ Hreg]. unfold redraw. by rewrite Hreg.
Qed.

End WidgetFacts.

(** ** More runs on the sample implementation *)

Section MoreRuns.
Import Sample Fixtures RangeDecorator DebugWidget.
#[local] Existing Instances types render strings.

Lemma fetchRealityData_coded_witness :
  fetchRealityData (manager (Thrown (fault 401))) "token" initial_world
  = (Returned None, notify initial_world (negative "Unauthorized" "persisting")).
Proof.
  exact (fetchRealityData_coded (manager (Thrown (fault 401))) "token"
           [("message", VStr "request failed"); ("errorNumber", VNum 401)] 401
           "Unauthorized" initial_world eq_refl eq_refl eq_refl).
Defined.

Lemma pnts_declared : declared_as (Some "pnts") "PNTS".
Proof. exists "pnts". by repeat split. Qed.

Lemma PNTS_tile_type : "PNTS" ∈ tile_types.
Proof. unfold tile_types. set_solver. Qed.

Lemma getRealityDataGeoLocation_tiles_witness :
  getRealityDataGeoLocation (G := geometry) (P := orbitgt None)
    (B := browser (box_doc 1 2 3)) "token" (record "pnts") initial_world
  = parseRootDocument (G := geometry) (box_doc 1 2 3) initial_world.
Proof.
  exact (getRealityDataGeoLocation_tiles (G := geometry) (P := orbitgt None)
           (B := browser (box_doc 1 2 3)) "token" (record "pnts") "PNTS"
           "https://blob/Model.json" {| ok := true; json := Returned (box_doc 1 2 3) |}
           (box_doc 1 2 3) initial_world
           PNTS_tile_type pnts_declared eq_refl eq_refl eq_refl eq_refl).
Defined.

Lemma getRealityDataGeoLocation_not_ok_witness :
  getRealityDataGeoLocation (G := geometry) (P := orbitgt None)
    (B := refusing_browser) "token" (record "pnts") initial_world
  = (Returned None, notify initial_world (negative "RootDocumentError" "persisting")).
Proof.
  exact (getRealityDataGeoLocation_not_ok (G := geometry) (P := orbitgt None)
           (B := refusing_browser) "token" (record "pnts") "PNTS"
           "https://blob/Model.json" {| ok := false; json := Thrown (VStr "no body") |}
           initial_world PNTS_tile_type pnts_declared eq_refl eq_refl eq_refl).
Defined.

Lemma opc_declared : declared_as (Some "Opc") "OPC".
Proof. exists "Opc". by repeat split. Qed.

Lemma getRealityDataGeoLocation_opc_witness :
  getRealityDataGeoLocation (G := geometry) (P := orbitgt None) (B := browser VNull)
    "token" (record "Opc") initial_world
  = realityModelFromOPC (G := geometry) (P := orbitgt None)
      "https://blob/Model.json" initial_world.
Proof.
  exact (getRealityDataGeoLocation_opc (G := geometry) (P := orbitgt None)
           (B := browser VNull) "token" (record "Opc") "https://blob/Model.json"
           initial_world opc_declared eq_refl).
Defined.

Lemma array_is_rootless fields :
  VArr [VNum 1] = VObj fields ->
  own_property fields "root" = None \/ own_property fields "root" = Some VUndefined.
Proof. discriminate. Qed.

Lemma parseRootDocument_rootless_witness :
  parseRootDocument (G := geometry) (VArr [VNum 1]) initial_world
  = (Returned None,
     notify initial_world (negative "RootDocMissingRootProperty" "persisting")).
Proof.
  exact (parseRootDocument_rootless (G := geometry) (VArr [VNum 1]) initial_world
           ltac:(discriminate) ltac:(discriminate) array_is_rootless).
Defined.

Lemma parseRootDocument_region_not_array_witness :
  parseRootDocument (G := geometry) bad_region_doc initial_world
  = (Returned None,
     notify initial_world (negative "RootDocMissingRegionProperty" "persisting")).
Proof.
  exact (parseRootDocument_region_not_array (G := geometry) bad_region_doc
           (VObj [("boundingVolume", VObj [("region", VNum 5)])])
           (VObj [("region", VNum 5)]) (VNum 5) initial_world
           (conj eq_refl (conj eq_refl eq_refl)) eq_refl eq_refl eq_refl).
Defined.

Lemma far_box_transform_form :
  transform_form (box_doc 0 0 7000000) (box_volume 0 0 7000000) VUndefined.
Proof. do 2 eexists. repeat split; reflexivity. Qed.

Lemma parseRootDocument_georeferenced_witness :
  exists g,
    parseRootDocument (G := geometry) (box_doc 0 0 7000000) initial_world
    = (Returned (Some g), initial_world)
    /\ location g
       = Some (loc_EcefLocation
                 ({| x := 0; y := 0; z := 7000000 |} : @EcefLocation types)).
Proof.
  eexists. split.
  - exact (parseRootDocument_georeferenced (G := geometry)
             (box_doc 0 0 7000000) (box_volume 0 0 7000000) VUndefined
             {| range := (Some ({| x := -1; y := -1; z := 6999999 |},
                                {| x := 1; y := 1; z := 7000001 |}) : @Range3d types) |}
             {| longitude := 0; latitude := 0; height := 7000000 |}
             ({| cols := identity_columns;
                 translation := {| x := 0; y := 0; z := -7000000 |} |} : @Transform types)
             initial_world far_box_transform_form
             eq_refl eq_refl eq_refl eq_refl eq_refl eq_refl).
  - reflexivity.
Defined.

Lemma rotated_transform_form :
  transform_form rotated_doc (box_volume 0 0 0) quarter_turn.
Proof. do 2 eexists. repeat split; reflexivity. Qed.

Lemma parseRootDocument_unoriented_transform_witness :
  exists g,
    parseRootDocument (G := geometry_without_angles) rotated_doc initial_world
    = (Returned (Some g), initial_world)
    /\ location g
       = Some (loc_EcefLocation
                 ({| x := 10; y := 20; z := 30 |} : @EcefLocation types)).
Proof.
  eexists. split.
  - exact (parseRootDocument_unoriented_transform (G := geometry_without_angles)
             rotated_doc (box_volume 0 0 0) quarter_turn
             {| range := (Some ({| x := -1; y := -1; z := -1 |},
                                {| x := 1; y := 1; z := 1 |}) : @Range3d types) |}
             {| longitude := 10; latitude := 20; height := 30 |}
             ({| cols := identity_columns;
                 translation := {| x := -10; y := -20; z := -30 |} |} : @Transform types)
             initial_world rotated_transform_form
             eq_refl eq_refl (or_introl eq_refl) eq_refl eq_refl).
  - reflexivity.
Defined.

Lemma getRealityDataProps_uncoded_witness :
  getRealityDataProps (G := geometry) (P := orbitgt None) (B := browser VNull)
    (manager (Thrown (VStr "offline"))) "token" initial_world
  = (Returned {| realityData := None; geoLocation := None |},
     notify initial_world (negative "SomethingWentWrongUnexpected" "persisting")).
Proof.
  exact (getRealityDataProps_uncoded (G := geometry) (P := orbitgt None)
           (B := browser VNull) (manager (Thrown (VStr "offline"))) "token"
           (VStr "offline") initial_world eq_refl eq_refl).
Defined.

Lemma getRealityDataProps_descriptor_witness :
  exists vis,
    realityData las_props = Some vis
    /\ getBlobUrl (record "LAS") "token" "" = Returned (tilesetUrl vis)
    /\ realityDataId vis = Some "rd-1"
    /\ key_id (rdSourceKey vis) = "rd-1"
    /\ name vis = Some "Model"
    /\ description vis = None
    /\ (format (rdSourceKey vis) = OPC <-> Some "LAS" = Some "OPC").
Proof.
  exact (getRealityDataProps_descriptor (G := geometry) (P := orbitgt None)
           (B := browser VNull) (manager (Returned (record "LAS"))) "token"
           (record "LAS") las_props initial_world
           (notify initial_world (negative "NotSupported" "persisting"))
           eq_refl eq_refl).
Defined.

Lemma active_app_reachable : reachable active_app.
Proof. apply reachable_getOrCreate, reachable_initial. Qed.

Lemma reachable_at_most_one_decorator_witness :
  decorators active_app = option_list (_decorator active_app)
  /\ (length (decorators active_app) <= 1)%nat
  /\ (isActive active_app = true <-> decorators active_app <> []).
Proof. exact (reachable_at_most_one_decorator active_app active_app_reachable). Defined.


Lemma getOrCreate_stores_extents_witness :
  current_extents (getOrCreate sample_extents initial).2 = Some sample_extents
  /\ isActive (getOrCreate sample_extents initial).2 = true
  /\ redraw sample_context (getOrCreate sample_extents initial).2
     = outlines sample_context sample_extents.
Proof.
  exact (getOrCreate_stores_extents sample_extents initial sample_context
           reachable_initial eq_refl).
Defined.


Lemma dispose_idempotent_witness :
  (isActive initial = false -> dispose initial = initial)
  /\ dispose (dispose active_app) = dispose active_app.
Proof.
  exact (conj (proj1 (dispose_idempotent initial reachable_initial))
              (proj2 (dispose_idempotent active_app active_app_reachable))).
Defined.

Lemma constructor_twice_leaves_first_registered_witness :
  (constructor sample_extents initial).1
  <> (constructor (None : @Range3d types) (constructor sample_extents initial).2).1
  /\ isActive
       (dispose (constructor (None : @Range3d types)
                   (constructor sample_extents initial).2).2) = false
  /\ decorators
       (dispose (constructor (None : @Range3d types)
                   (constructor sample_extents initial).2).2)
     = [(constructor sample_extents initial).1]
  /\ redraw sample_context
       (dispose (constructor (None : @Range3d types)
                   (constructor sample_extents initial).2).2)
     = outlines sample_context sample_extents.
Proof.
  exact (constructor_twice_leaves_first_registered sample_extents
           (None : @Range3d types) initial sample_context reachable_initial eq_refl).
Defined.

Lemma click_toggles_witness :
  onClick None initial_widget = initial_widget
  /\ redraw sample_context (decoration (onClick (Some sample_connection) initial_widget))
     = outlines sample_context sample_extents
  /\ redraw sample_context
       (decoration (onClick (Some sample_connection)
                      (onClick (Some sample_connection) initial_widget))) = []
  /\ extentsVisible (onClick (Some sample_connection)
                       (onClick (Some sample_connection) initial_widget)) = false.
Proof.
  exact (click_toggles initial_widget sample_connection sample_connection sample_context
           reachable_initial eq_refl eq_refl).
Defined.

(** With an engine that upper-cases the long s to S, a record whose type is
    spelled "pnt" and a long s is declared as PNTS: it is not unsupported,
    and its root document is downloaded and parsed. *)
Example long_s_is_PNTS :
  declared_as (S := long_s_strings) (rd_type long_s_record) "PNTS"
  /\ ~ unsupported (S := long_s_strings) (rd_type long_s_record)
  /\ getRealityDataGeoLocation (G := geometry) (P := orbitgt None)
       (B := browser (box_doc 1 2 3)) (S := long_s_strings)
       "token" long_s_record initial_world
     = parseRootDocument (G := geometry) (box_doc 1 2 3) initial_world.
Proof.
  split; [| split].
  - eexists. by repeat split.
  - intros Hun. apply (Hun _ "PNTS" eq_refl); [|reflexivity].
    unfold supported_types. set_solver.
  - reflexivity.
Qed.

End MoreRuns.
